(** * Graduate Career Outcomes Dashboard (app1.py)

    A shallow embedding of the dashboard script and of the fragment of the
    data-frame and plotting interfaces it calls, followed by the properties
    of the filter, of the aggregations behind the ten charts and of one
    render cycle of the page.

    Conventions of the embedding.
    - A data frame is the ordered list of its rows; a row is a record with
      one field per column the script reads.
    - A cell of a numeric column holds a finite number, kept as a rational
      ([Q]); a missing cell (NaN, or None in a text column) is [None].
      Comparisons of finite floating-point numbers agree with the
      comparisons of the rationals they denote. *)

From Stdlib Require Import List String Ascii Bool Arith Lia.
From Stdlib Require Import QArith Qreduction.
From Stdlib Require Import Permutation Sorted.
From Stdlib Require OrderedTypeEx.
Import ListNotations.

Local Open Scope list_scope.

(** ** The record table *)

Record Row : Type := mkRow {
  Field_of_Study        : option string;
  University_GPA        : option Q;
  Starting_Salary       : option Q;
  Years_to_Promotion    : option Q;
  Networking_Score      : option Q;
  Job_Offers            : option Q;
  Gender                : option string;
  Career_Satisfaction   : option Q;
  WorkLifeBalance_Score : option Q;
  Current_Job_Level     : option string;
  Certifications        : option Q
}.

Definition DataFrame : Type := list Row.

(** ** The data-frame operations the script calls *)

Module Pandas.

(** A column (Series without its index): one cell per row. *)
Definition Column (A : Type) : Type := list (option A).

(** [df["name"]]: the column selected by its accessor. *)
Definition getitem {A : Type} (df : DataFrame) (name : Row -> option A)
  : Column A := map name df.

Definition isna {A : Type} (c : option A) : bool :=
  match c with None => true | Some _ => false end.

Definition notna {A : Type} (c : option A) : bool := negb (isna c).

(** [s.dropna()] *)
Fixpoint dropna {A : Type} (s : Column A) : list A :=
  match s with
  | [] => []
  | Some a :: s' => a :: dropna s'
  | None :: s' => dropna s'
  end.

(** Sorting by insertion, which is stable.  It gives the order of Python's
    [sorted], of the group keys of [groupby] and of [sort_index] (distinct
    keys, so any sort agrees), and stands for [argsort] behind
    [sort_values] and [value_counts], where the order among equal values is
    the only thing a different sort could change. *)
Section Sorting.
Context {E : Type} (leb : E -> E -> bool).

Fixpoint insert (x : E) (l : list E) : list E :=
  match l with
  | [] => [x]
  | y :: l' => if leb x y then x :: l else y :: insert x l'
  end.

Fixpoint sorted (l : list E) : list E :=
  match l with
  | [] => []
  | x :: l' => insert x (sorted l')
  end.

(** The order [nargsort] computes: ascending as it is, descending by
    reversing, sorting ascending and reversing again. *)
Definition nargsort (ascending : bool) (l : list E) : list E :=
  if ascending then sorted l else rev (sorted (rev l)).
End Sorting.

(** [s.unique()]: the distinct values in order of first appearance. *)
Section Unique.
Context {A : Type} (eqb : A -> A -> bool).

Fixpoint unique (l : list A) : list A :=
  match l with
  | [] => []
  | x :: l' => x :: filter (fun y => negb (eqb x y)) (unique l')
  end.
End Unique.

(** [s.isin(values)]: a missing cell is in no list of strings. *)
Definition isin (s : Column string) (values : list string) : list bool :=
  map (fun c => match c with
                | Some v => existsb (String.eqb v) values
                | None => false
                end) s.

(** [s >= left] and [s <= right]: a comparison with a missing cell is
    false. *)
Definition ge (s : Column Q) (left : Q) : list bool :=
  map (fun c => match c with Some x => Qle_bool left x | None => false end) s.

Definition le (s : Column Q) (right : Q) : list bool :=
  map (fun c => match c with Some x => Qle_bool x right | None => false end) s.

(** [m1 & m2] on boolean masks of one length. *)
Definition mask_and (m1 m2 : list bool) : list bool :=
  map (fun p => andb (fst p) (snd p)) (combine m1 m2).

(** [s.between(left, right)], inclusive of both ends. *)
Definition between (s : Column Q) (left right : Q) : list bool :=
  mask_and (ge s left) (le s right).

(** [df[mask]]: a new frame with the rows whose mask entry is true. *)
Definition getitem_mask (df : DataFrame) (mask : list bool) : DataFrame :=
  map fst (filter snd (combine df mask)).

(** [s == v] for a text column. *)
Definition eq_str (s : Column string) (v : string) : list bool :=
  map (fun c => match c with Some x => String.eqb x v | None => false end) s.

Definition qmin (a b : Q) : Q := if Qle_bool a b then a else b.
Definition qmax (a b : Q) : Q := if Qle_bool a b then b else a.

(** [s.min()] and [s.max()]: missing cells are skipped; NaN when no cell
    is left. *)
Definition min (s : Column Q) : option Q :=
  match dropna s with
  | [] => None
  | x :: xs => Some (fold_left qmin xs x)
  end.

Definition max (s : Column Q) : option Q :=
  match dropna s with
  | [] => None
  | x :: xs => Some (fold_left qmax xs x)
  end.

Definition sum (xs : list Q) : Q := fold_left Qplus xs 0%Q.

(** [s.mean()]: missing cells are skipped; NaN when no cell is left.  This
    is the exact mean of the present cells, in lowest terms; the number the
    library returns is this one rounded to a float. *)
Definition mean (s : Column Q) : option Q :=
  match dropna s with
  | [] => None
  | xs => Some (Qred (sum xs / inject_Z (Z.of_nat (List.length xs))))
  end.

(** A Series with an index: labelled values, in order. *)
Definition Series (K V : Type) : Type := list (K * V).

Definition index {K V : Type} (s : Series K V) : list K := map fst s.
Definition values {K V : Type} (s : Series K V) : list V := map snd s.

Section GroupBy.
Context {K : Type} (keqb kleb : K -> K -> bool).

(** The cells of [vals] on the rows whose key is [k]. *)
Definition group_cells {V : Type} (keys : Column K) (vals : Column V) (k : K)
  : Column V :=
  map snd (filter (fun p => match fst p with
                            | Some k' => keqb k' k
                            | None => false
                            end) (combine keys vals)).

(** The group keys of [groupby]: the distinct keys that are present,
    sorted; rows with a missing key belong to no group. *)
Definition group_keys (keys : Column K) : list K :=
  sorted kleb (unique keqb (dropna keys)).

(** [df.groupby(key)[val].mean()] *)
Definition groupby_mean (keys : Column K) (vals : Column Q)
  : Series K (option Q) :=
  map (fun k => (k, mean (group_cells keys vals k))) (group_keys keys).

(** [s.sort_index()] *)
Definition sort_index {V : Type} (s : Series K V) : Series K V :=
  sorted (fun p q => kleb (fst p) (fst q)) s.

(** [s.value_counts()]: the number of rows per distinct present value,
    most frequent first. *)
Definition value_counts (s : Column K) : Series K nat :=
  let present := dropna s in
  nargsort (fun p q => Nat.leb (snd p) (snd q)) false
    (map (fun k => (k, List.length (filter (keqb k) present)))
         (unique keqb present)).
End GroupBy.

(** The order of the values of a Series: numbers by size, NaN after every
    number. *)
Definition value_leb (a b : option Q) : bool :=
  match a, b with
  | Some x, Some y => Qle_bool x y
  | _, None => true
  | None, Some _ => false
  end.

(** [s.sort_values(ascending=...)]: the numbers in order, then the NaNs. *)
Definition sort_values {K : Type} (ascending : bool) (s : Series K (option Q))
  : Series K (option Q) :=
  nargsort (fun p q => value_leb (snd p) (snd q)) ascending
    (filter (fun p => notna (snd p)) s)
  ++ filter (fun p => isna (snd p)) s.

End Pandas.

(** ** The plotting calls the script makes *)

Module Pyplot.
Import Pandas.

(** The calls a chart function makes on its axes (and, for the last two, on
    the figure), in order, each with the data it is handed.  Keyword
    arguments that only style the drawing are not recorded.  The list is
    the function's sequence of calls as written: when the library refuses
    one, the function ends there, which the list does not show. *)
Inductive Call : Type :=
| hist (x : Column Q) (bins : nat)
| bar (x : list string) (height : list (option Q))
| plot (x : list Q) (y : list (option Q))
| scatter (x y : Column Q)
| violinplot (dataset : list (Column Q))
| boxplot (x : list (Column Q)) (labels : list string)
| pie (x : list nat) (labels : list string)
| imshow (X : list (list (option Q)))
| set_title (label : string)
| set_xlabel (label : string)
| set_ylabel (label : string)
| set_xticks (ticks : list nat)
| set_xticklabels (labels : list string)
| set_yticks (ticks : list nat)
| set_yticklabels (labels : list string)
| tick_params (axis : string) (rotation labelsize : nat)
| colorbar
| tight_layout.

(** [plt.subplots(figsize=...)] and what was then drawn. *)
Record Figure : Type :=
  subplots { figwidth : nat; figheight : nat; calls : list Call }.

(** The calls that draw the data of a chart. *)
Definition draws_data (c : Call) : bool :=
  match c with
  | hist _ _ | bar _ _ | plot _ _ | scatter _ _ | violinplot _
  | boxplot _ _ | pie _ _ | imshow _ => true
  | _ => false
  end.

(** A figure is an explicit placeholder when it makes no data-drawing call
    at all: it only carries text. *)
Definition is_placeholder (f : Figure) : bool :=
  forallb (fun c => negb (draws_data c)) (calls f).

End Pyplot.

(** ** The script: defaults, filter and chart functions *)

Module App.
Import Pandas Pyplot.
Local Open Scope string_scope.

(** Line 32: [sorted(df["Field_of_Study"].dropna().unique())]. *)
Definition field_options (df : DataFrame) : list string :=
  sorted String.leb (unique String.eqb (dropna (getitem df Field_of_Study))).

(** Lines 40-41. *)
Definition gpa_min (df : DataFrame) : option Q := min (getitem df University_GPA).
Definition gpa_max (df : DataFrame) : option Q := max (getitem df University_GPA).

(** Lines 50-53: the filtered frame. *)
Definition apply_filters (df : DataFrame) (selected_fields : list string)
    (gpa_range : Q * Q) : DataFrame :=
  getitem_mask df
    (mask_and (isin (getitem df Field_of_Study) selected_fields)
              (between (getitem df University_GPA)
                       (fst gpa_range) (snd gpa_range))).

(** *** The aggregations computed inside the chart functions *)

Definition avg_salary_by_field (data : DataFrame) : Series string (option Q) :=
  sort_values false
    (groupby_mean String.eqb String.leb
       (getitem data Field_of_Study) (getitem data Starting_Salary)).

Definition avg_salary_by_years (data : DataFrame) : Series Q (option Q) :=
  sort_index Qle_bool
    (groupby_mean Qeq_bool Qle_bool
       (getitem data Years_to_Promotion) (getitem data Starting_Salary)).

Definition avg_offers_by_network (data : DataFrame) : Series Q (option Q) :=
  sort_index Qle_bool
    (groupby_mean Qeq_bool Qle_bool
       (getitem data Networking_Score) (getitem data Job_Offers)).

Definition genders (data : DataFrame) : list string :=
  unique String.eqb (dropna (getitem data Gender)).

Definition satisfaction_data (data : DataFrame) : list (Column Q) :=
  map (fun g => getitem (getitem_mask data (eq_str (getitem data Gender) g))
                        Career_Satisfaction)
      (genders data).

Definition fields (data : DataFrame) : list string :=
  unique String.eqb (dropna (getitem data Field_of_Study)).

Definition wlb_data (data : DataFrame) : list (Column Q) :=
  map (fun f => getitem (getitem_mask data (eq_str (getitem data Field_of_Study) f))
                        WorkLifeBalance_Score)
      (fields data).

Definition job_counts (data : DataFrame) : Series string nat :=
  value_counts String.eqb (getitem data Current_Job_Level).

Definition avg_offers (data : DataFrame) : Series Q (option Q) :=
  sort_index Qle_bool
    (groupby_mean Qeq_bool Qle_bool
       (getitem data Certifications) (getitem data Job_Offers)).

Definition avg_sat (data : DataFrame) : Series string (option Q) :=
  sort_values true
    (groupby_mean String.eqb String.leb
       (getitem data Field_of_Study) (getitem data Career_Satisfaction)).

(** *** The chart functions *)

Definition plot_gpa_hist (data : DataFrame) : Figure :=
  subplots 6 4
    [ hist (getitem data University_GPA) 10;
      set_title "Histogram of University GPA";
      set_xlabel "University_GPA";
      set_ylabel "Frequency";
      tight_layout ].

Definition plot_salary_by_field (data : DataFrame) : Figure :=
  let avg_salary_by_field := avg_salary_by_field data in
  subplots 8 4
    [ bar (index avg_salary_by_field) (values avg_salary_by_field);
      set_title "Average Starting Salary by Field of Study";
      set_xlabel "Field_of_Study";
      set_ylabel "Average Starting Salary";
      tick_params "x" 45 8;
      tight_layout ].

Definition plot_salary_by_promotion_years (data : DataFrame) : Figure :=
  let avg_salary_by_years := avg_salary_by_years data in
  subplots 6 4
    [ plot (index avg_salary_by_years) (values avg_salary_by_years);
      set_title "Average Starting Salary by Years to Promotion";
      set_xlabel "Years to Promotion";
      set_ylabel "Average Starting Salary";
      tight_layout ].

Definition plot_job_offers_by_networking (data : DataFrame) : Figure :=
  let avg_offers_by_network := avg_offers_by_network data in
  subplots 6 4
    [ plot (index avg_offers_by_network) (values avg_offers_by_network);
      set_title "Average Job Offers by Networking Score";
      set_xlabel "Networking_Score";
      set_ylabel "Average Job Offers";
      tight_layout ].

Definition plot_gpa_vs_promotion (data : DataFrame) : Figure :=
  subplots 6 4
    [ scatter (getitem data Years_to_Promotion) (getitem data University_GPA);
      set_title "Do Higher GPAs Lead to Faster Promotions?";
      set_xlabel "Years to Promotion";
      set_ylabel "University GPA";
      tight_layout ].

Definition plot_satisfaction_by_gender (data : DataFrame) : Figure :=
  let genders := genders data in
  let satisfaction_data := satisfaction_data data in
  subplots 6 4
    [ violinplot satisfaction_data;
      set_xticks (seq 1 (List.length genders));
      set_xticklabels genders;
      set_title "How Does Career Satisfaction Differ by Gender?";
      set_xlabel "Gender";
      set_ylabel "Career Satisfaction";
      tight_layout ].

Definition plot_worklife_by_field (data : DataFrame) : Figure :=
  let fields := fields data in
  let wlb_data := wlb_data data in
  subplots 8 4
    [ boxplot wlb_data fields;
      set_title "Which Majors Achieve Better Work-Life Balance?";
      set_xlabel "Field of Study";
      set_ylabel "Work-Life Balance Score";
      tick_params "x" 45 8;
      tight_layout ].

Definition plot_joblevel_pie (data : DataFrame) : Figure :=
  let job_counts := job_counts data in
  subplots 5 5
    [ pie (values job_counts) (index job_counts);
      set_title "Distribution of Job Levels Among Graduates";
      tight_layout ].

Definition plot_offers_vs_certifications (data : DataFrame) : Figure :=
  let avg_offers := avg_offers data in
  subplots 6 4
    [ plot (index avg_offers) (values avg_offers);
      set_title "Job Offers vs Certifications";
      set_xlabel "Certifications";
      set_ylabel "Average Job Offers";
      tight_layout ].

Definition plot_satisfaction_heatmap (data : DataFrame) : Figure :=
  let avg_sat := avg_sat data in
  subplots 6 4
    [ imshow (map (fun v => [v]) (values avg_sat));
      set_yticks (seq 0 (List.length (index avg_sat)));
      set_yticklabels (index avg_sat);
      set_xticks [0%nat];
      set_xticklabels ["Career Satisfaction"];
      set_title "Average Career Satisfaction by Major";
      colorbar;
      tight_layout ].

End App.

(** ** The page elements and widgets the script uses *)

Module Streamlit.
Import Pandas Pyplot.

(** One column of [data.describe(include="all")]: the count of present
    cells and, for a numeric column, mean, minimum and maximum, for a text
    column the number of distinct values.  (Deviation and quantiles are
    not recorded.) *)
Inductive Stats : Type :=
| numeric_stats (count : nat) (mean min max : option Q)
| text_stats (count unique : nat).

Definition describe_numeric (s : Column Q) : Stats :=
  numeric_stats (List.length (dropna s)) (Pandas.mean s) (Pandas.min s) (Pandas.max s).

Definition describe_text (s : Column string) : Stats :=
  text_stats (List.length (dropna s))
             (List.length (Pandas.unique String.eqb (dropna s))).

Definition describe (data : DataFrame) : list (string * Stats) :=
  [ ("Field_of_Study"%string, describe_text (getitem data Field_of_Study));
    ("University_GPA"%string, describe_numeric (getitem data University_GPA));
    ("Starting_Salary"%string, describe_numeric (getitem data Starting_Salary));
    ("Years_to_Promotion"%string, describe_numeric (getitem data Years_to_Promotion));
    ("Networking_Score"%string, describe_numeric (getitem data Networking_Score));
    ("Job_Offers"%string, describe_numeric (getitem data Job_Offers));
    ("Gender"%string, describe_text (getitem data Gender));
    ("Career_Satisfaction"%string, describe_numeric (getitem data Career_Satisfaction));
    ("WorkLifeBalance_Score"%string, describe_numeric (getitem data WorkLifeBalance_Score));
    ("Current_Job_Level"%string, describe_text (getitem data Current_Job_Level));
    ("Certifications"%string, describe_numeric (getitem data Certifications)) ].

(** What a call of the page interface puts on the page.  The layout
    column an element lands in is not recorded. *)
Inductive Element : Type :=
| set_page_config (page_title layout : string)
| title (body : string)
| markdown (body : string)
| sidebar_header (body : string)
| sidebar_multiselect (label : string) (options default : list string)
| sidebar_slider (label : string) (min_value max_value : Q) (value : Q * Q)
| dataframe (data : list (string * Stats))
| pyplot (fig : Figure)
| caption (body : string).

(** What is outside the script in one run: the file that [load_data]
    reads and the state of the two widgets, given as the value each widget
    returns for its options (or bounds) and default.  The slider may refuse
    its bounds: [None]. *)
Record Session : Type := {
  csv : DataFrame;
  multiselect : list string -> list string -> list string;
  slider : Q -> Q -> Q * Q -> option (Q * Q)
}.

End Streamlit.

(** ** One run of the script, statement by statement *)

Module Script.
Import Pandas Pyplot Streamlit.
Local Open Scope string_scope.

(** The module-level names of the script and the page built so far.  A
    name holds an empty value until its assignment runs. *)
Record Globals : Type := mkGlobals {
  df              : DataFrame;
  field_options   : list string;
  selected_fields : list string;
  gpa_min         : option Q;
  gpa_max         : option Q;
  gpa_range       : Q * Q;
  filtered        : DataFrame;
  page            : list Element
}.

Definition start : Globals :=
  mkGlobals [] [] [] None None (0, 0)%Q [] [].

Definition emit (e : Element) (g : Globals) : Globals :=
  mkGlobals (df g) (field_options g) (selected_fields g) (gpa_min g)
            (gpa_max g) (gpa_range g) (filtered g) (page g ++ [e]).

(** The ten charts of the page, in page order. *)
Inductive Chart : Type :=
| gpa_hist | salary_by_field | salary_by_promotion_years
| job_offers_by_networking | gpa_vs_promotion | satisfaction_by_gender
| worklife_by_field | joblevel_pie | offers_vs_certifications
| satisfaction_heatmap.

Definition charts : list Chart :=
  [ gpa_hist; salary_by_field; salary_by_promotion_years;
    job_offers_by_networking; gpa_vs_promotion; satisfaction_by_gender;
    worklife_by_field; joblevel_pie; offers_vs_certifications;
    satisfaction_heatmap ].

Definition plot_of (c : Chart) : DataFrame -> Figure :=
  match c with
  | gpa_hist => App.plot_gpa_hist
  | salary_by_field => App.plot_salary_by_field
  | salary_by_promotion_years => App.plot_salary_by_promotion_years
  | job_offers_by_networking => App.plot_job_offers_by_networking
  | gpa_vs_promotion => App.plot_gpa_vs_promotion
  | satisfaction_by_gender => App.plot_satisfaction_by_gender
  | worklife_by_field => App.plot_worklife_by_field
  | joblevel_pie => App.plot_joblevel_pie
  | offers_vs_certifications => App.plot_offers_vs_certifications
  | satisfaction_heatmap => App.plot_satisfaction_heatmap
  end.

Definition caption_of (c : Chart) : string :=
  match c with
  | gpa_hist => "Distribution of students' university GPA."
  | salary_by_field => "Average starting salary by field of study."
  | salary_by_promotion_years =>
      "How starting salary changes with years to first promotion."
  | job_offers_by_networking => "Average job offers for each networking score."
  | gpa_vs_promotion => "Relationship between GPA and time to promotion."
  | satisfaction_by_gender => "Career satisfaction distribution by gender."
  | worklife_by_field => "Which majors report better work–life balance."
  | joblevel_pie => "Proportion of graduates at each job level."
  | offers_vs_certifications => "Average job offers by number of certifications."
  | satisfaction_heatmap => "Average career satisfaction across majors."
  end.

Definition heading_of (n : nat) : string :=
  match n with
  | 1 => "### 1. Student Performance & Outcomes"
  | 2 => "### 2. Promotions, Networking and Offers"
  | 3 => "### 3. GPA, Satisfaction and Work–Life Balance"
  | 4 => "### 4. Job Levels and Overall Satisfaction"
  | _ => "### 5. Extra: Offers vs Certifications and Satisfaction by Major"
  end%nat.

Definition story_summary : string :=
  "
**Story Summary:**
- GPA and networking both relate to faster promotions and more job offers.
- Some majors clearly lead to higher starting salaries and better work–life balance.
- Job levels and satisfaction vary across fields and genders, highlighting where support or guidance may be needed.
".

(** The statements of the script that run at module level. *)
Inductive Stmt : Type :=
| PageConfig            (* line 9 *)
| PageTitle             (* line 14 *)
| PageIntro             (* line 15 *)
| LoadData              (* line 27: df = load_data() *)
| SidebarHeader         (* line 29 *)
| AssignFieldOptions    (* line 32 *)
| AssignSelectedFields  (* line 33 *)
| AssignGpaMin          (* line 40 *)
| AssignGpaMax          (* line 41 *)
| AssignGpaRange        (* line 42 *)
| AssignFiltered        (* line 50 *)
| OverviewHeading       (* line 55 *)
| OverviewTable         (* line 56 *)
| SectionHeading (n : nat)
| Pyplot (c : Chart)    (* st.pyplot(plot_...(filtered)) *)
| Caption (c : Chart)
| StorySummary.         (* line 262 *)

(** The effect of one statement, as far as this model follows the run;
    [None] when it does not follow it further.  That is the case when the
    slider refuses the bounds it is given, and when the minimum or the
    maximum is undefined: the range is kept as a pair of numbers, so
    whatever the slider returns over undefined bounds lies outside the
    model (the script itself raises nothing there).  A chart statement puts
    on the page the figure its chart function describes; whether the
    plotting library raises while drawing is not decided here, so a run
    that ends in [Some] is one in which every drawing call was accepted. *)
Definition exec (io : Session) (s : Stmt) (g : Globals) : option Globals :=
  match s with
  | PageConfig =>
      Some (emit (set_page_config "Graduate Career Outcomes Dashboard" "wide") g)
  | PageTitle => Some (emit (title "Graduate Career Outcomes Dashboard") g)
  | PageIntro =>
      Some (emit (markdown
        "Interactive visualizations based on the student career outcomes dataset.") g)
  | LoadData =>
      Some (mkGlobals (csv io) (field_options g) (selected_fields g)
              (gpa_min g) (gpa_max g) (gpa_range g) (filtered g) (page g))
  | SidebarHeader => Some (emit (sidebar_header "Filters") g)
  | AssignFieldOptions =>
      Some (mkGlobals (df g) (App.field_options (df g)) (selected_fields g)
              (gpa_min g) (gpa_max g) (gpa_range g) (filtered g) (page g))
  | AssignSelectedFields =>
      Some (emit (sidebar_multiselect "Field of Study"
                    (field_options g) (field_options g))
              (mkGlobals (df g) (field_options g)
                 (multiselect io (field_options g) (field_options g))
                 (gpa_min g) (gpa_max g) (gpa_range g) (filtered g) (page g)))
  | AssignGpaMin =>
      Some (mkGlobals (df g) (field_options g) (selected_fields g)
              (App.gpa_min (df g)) (gpa_max g) (gpa_range g) (filtered g) (page g))
  | AssignGpaMax =>
      Some (mkGlobals (df g) (field_options g) (selected_fields g)
              (gpa_min g) (App.gpa_max (df g)) (gpa_range g) (filtered g) (page g))
  | AssignGpaRange =>
      match gpa_min g, gpa_max g with
      | Some lo, Some hi =>
          match slider io lo hi (lo, hi) with
          | Some value =>
              Some (emit (sidebar_slider "University GPA range" lo hi (lo, hi))
                      (mkGlobals (df g) (field_options g) (selected_fields g)
                         (gpa_min g) (gpa_max g) value (filtered g) (page g)))
          | None => None
          end
      | _, _ => None
      end
  | AssignFiltered =>
      Some (mkGlobals (df g) (field_options g) (selected_fields g)
              (gpa_min g) (gpa_max g) (gpa_range g)
              (App.apply_filters (df g) (selected_fields g) (gpa_range g))
              (page g))
  | OverviewHeading => Some (emit (markdown "### Overview statistics") g)
  | OverviewTable => Some (emit (dataframe (describe (filtered g))) g)
  | SectionHeading n => Some (emit (markdown (heading_of n)) g)
  | Pyplot c => Some (emit (pyplot (plot_of c (filtered g))) g)
  | Caption c => Some (emit (caption (caption_of c)) g)
  | StorySummary => Some (emit (markdown story_summary) g)
  end.

(** Statements run in order; the first without an outcome ends the run. *)
Fixpoint exec_all (io : Session) (p : list Stmt) (g : Globals) : option Globals :=
  match p with
  | [] => Some g
  | s :: p' =>
      match exec io s g with
      | Some g' => exec_all io p' g'
      | None => None
      end
  end.

(** The script, top to bottom. *)
Definition script : list Stmt :=
  [ PageConfig; PageTitle; PageIntro; LoadData; SidebarHeader;
    AssignFieldOptions; AssignSelectedFields;
    AssignGpaMin; AssignGpaMax; AssignGpaRange;
    AssignFiltered; OverviewHeading; OverviewTable;
    SectionHeading 1; Pyplot gpa_hist; Caption gpa_hist;
    Pyplot salary_by_field; Caption salary_by_field;
    SectionHeading 2;
    Pyplot salary_by_promotion_years; Caption salary_by_promotion_years;
    Pyplot job_offers_by_networking; Caption job_offers_by_networking;
    SectionHeading 3; Pyplot gpa_vs_promotion; Caption gpa_vs_promotion;
    Pyplot satisfaction_by_gender; Caption satisfaction_by_gender;
    SectionHeading 4; Pyplot worklife_by_field; Caption worklife_by_field;
    Pyplot joblevel_pie; Caption joblevel_pie;
    SectionHeading 5;
    Pyplot offers_vs_certifications; Caption offers_vs_certifications;
    Pyplot satisfaction_heatmap; Caption satisfaction_heatmap;
    StorySummary ].

Definition run (io : Session) : option Globals := exec_all io script start.

(** What the page shows of the data: the frames handed to the overview
    table and the figures handed to [st.pyplot], in page order. *)
Definition overview_tables (pg : list Element) : list (list (string * Stats)) :=
  flat_map (fun e => match e with dataframe d => [d] | _ => [] end) pg.

Definition figures (pg : list Element) : list Figure :=
  flat_map (fun e => match e with pyplot f => [f] | _ => [] end) pg.

(** The page of a run that reaches the end, in terms of the filtered
    frame. *)
Definition page_of (opts : list string) (lo hi : Q) (view : DataFrame)
  : list Element :=
  [ set_page_config "Graduate Career Outcomes Dashboard" "wide";
    title "Graduate Career Outcomes Dashboard";
    markdown "Interactive visualizations based on the student career outcomes dataset.";
    sidebar_header "Filters";
    sidebar_multiselect "Field of Study" opts opts;
    sidebar_slider "University GPA range" lo hi (lo, hi);
    markdown "### Overview statistics";
    dataframe (describe view);
    markdown (heading_of 1);
    pyplot (plot_of gpa_hist view); caption (caption_of gpa_hist);
    pyplot (plot_of salary_by_field view); caption (caption_of salary_by_field);
    markdown (heading_of 2);
    pyplot (plot_of salary_by_promotion_years view);
    caption (caption_of salary_by_promotion_years);
    pyplot (plot_of job_offers_by_networking view);
    caption (caption_of job_offers_by_networking);
    markdown (heading_of 3);
    pyplot (plot_of gpa_vs_promotion view); caption (caption_of gpa_vs_promotion);
    pyplot (plot_of satisfaction_by_gender view);
    caption (caption_of satisfaction_by_gender);
    markdown (heading_of 4);
    pyplot (plot_of worklife_by_field view); caption (caption_of worklife_by_field);
    pyplot (plot_of joblevel_pie view); caption (caption_of joblevel_pie);
    markdown (heading_of 5);
    pyplot (plot_of offers_vs_certifications view);
    caption (caption_of offers_vs_certifications);
    pyplot (plot_of satisfaction_heatmap view);
    caption (caption_of satisfaction_heatmap);
    markdown story_summary ].

End Script.

(** ** The words of the specification *)

Module Spec.

(** A row is retained when its field of study is one of the categories and
    its GPA lies in the interval, both ends included. *)
Definition Retained (categories : list string) (gpa_range : Q * Q) (row : Row)
  : Prop :=
  (exists f, Field_of_Study row = Some f /\ In f categories) /\
  (exists g, University_GPA row = Some g /\
             (fst gpa_range <= g)%Q /\ (g <= snd gpa_range)%Q).

(** [l1] is [l2] with some elements left out, the others in their order. *)
Inductive Subsequence {A : Type} : list A -> list A -> Prop :=
| sub_nil : Subsequence [] []
| sub_skip x l1 l2 : Subsequence l1 l2 -> Subsequence l1 (x :: l2)
| sub_keep x l1 l2 : Subsequence l1 l2 -> Subsequence (x :: l1) (x :: l2).

(** Both filtered columns of the row hold a value. *)
Definition complete (row : Row) : bool :=
  Pandas.notna (Field_of_Study row) && Pandas.notna (University_GPA row).

(** The rows of a group: those whose key column holds [k]. *)
Definition group_rows {K : Type} (keqb : K -> K -> bool)
    (key : Row -> option K) (k : K) (data : DataFrame) : DataFrame :=
  filter (fun r => match key r with Some k' => keqb k' k | None => false end)
         data.

(** The row has a value in the column. *)
Definition has {A : Type} (col : Row -> option A) (r : Row) : bool :=
  Pandas.notna (col r).

(** [agg] maps each group of [data] under [key] to the mean of the group's
    [val] cells, and its keys are the keys present in [data]. *)
Definition mean_per_group {K : Type} (keqb : K -> K -> bool)
    (key : Row -> option K) (val : Row -> option Q)
    (agg : Pandas.Series K (option Q)) (data : DataFrame) : Prop :=
  (forall k v, In (k, v) agg ->
     v = Pandas.mean (Pandas.getitem (group_rows keqb key k data) val)) /\
  (forall k, In k (Pandas.index agg) -> exists r, In r data /\ key r = Some k) /\
  (forall r k, In r data -> key r = Some k ->
     exists k', In k' (Pandas.index agg) /\ keqb k' k = true).

(** Strictly descending, and descending with ties allowed. *)
Definition strictly_descending (l : list Q) : Prop :=
  StronglySorted (fun a b => (b < a)%Q) l.

Definition descending (l : list Q) : Prop :=
  StronglySorted (fun a b => (b <= a)%Q) l.

End Spec.

(** ** Auxiliary definitions *)

(** The mask of lines 51-52, row by row. *)
Definition keeps (selected_fields : list string) (gpa_range : Q * Q) (r : Row)
  : bool :=
  match Field_of_Study r with
  | Some v => existsb (String.eqb v) selected_fields
  | None => false
  end &&
  (match University_GPA r with
   | Some x => Qle_bool (fst gpa_range) x
   | None => false
   end &&
   match University_GPA r with
   | Some x => Qle_bool x (snd gpa_range)
   | None => false
   end).

(** Sample rows for the closed examples. *)
Definition student (field : option string) (gpa : option Q) : Row :=
  mkRow field gpa None None None None None None None None None.

(** A session over a table of three students in which both widgets are
    left at their defaults, and the globals its run ends with. *)
Definition demo_table : DataFrame :=
  [ student (Some "CS"%string) (Some 3.2%Q);
    student (Some "Art"%string) (Some 3.4%Q);
    student (Some "CS"%string) (Some 2.8%Q) ].

Definition demo_session : Streamlit.Session :=
  {| Streamlit.csv := demo_table;
     Streamlit.multiselect := fun _ default => default;
     Streamlit.slider := fun _ _ value => Some value |}.

Definition demo_globals : Script.Globals :=
  Eval vm_compute in
    match Script.run demo_session with
    | Some g => g
    | None => Script.start
    end.

(** Two tables with an incomplete row: one lacks a field of study, the
    other a GPA. *)
Definition table_missing_field : DataFrame :=
  [ student (Some "CS"%string) (Some 3.0%Q); student None (Some 3.5%Q) ].

Definition table_missing_gpa : DataFrame :=
  [ student (Some "CS"%string) (Some 3.0%Q); student (Some "Art"%string) None ].

(** Rows that carry a field of study and a starting salary, the example
    table of the specification and a table in which two fields tie. *)
Definition graduate (field : option string) (salary : option Q) : Row :=
  mkRow field None salary None None None None None None None None.

Definition salary_example : DataFrame :=
  [ graduate (Some "CS"%string) (Some 100%Q);
    graduate (Some "CS"%string) (Some 120%Q);
    graduate (Some "Art"%string) (Some 60%Q) ].

Definition salary_tie : DataFrame :=
  [ graduate (Some "CS"%string) (Some 100%Q);
    graduate (Some "Art"%string) (Some 100%Q) ].

(** A row with a field of study and no work-life balance score. *)
Definition unscored : Row :=
  mkRow (Some "CS"%string) None None None None None None None None None None.

(** The data-drawing call of each chart when there is nothing to draw. *)
Definition empty_call (c : Script.Chart) : Pyplot.Call :=
  match c with
  | Script.gpa_hist => Pyplot.hist [] 10
  | Script.salary_by_field => Pyplot.bar [] []
  | Script.salary_by_promotion_years => Pyplot.plot [] []
  | Script.job_offers_by_networking => Pyplot.plot [] []
  | Script.gpa_vs_promotion => Pyplot.scatter [] []
  | Script.satisfaction_by_gender => Pyplot.violinplot []
  | Script.worklife_by_field => Pyplot.boxplot [] []
  | Script.joblevel_pie => Pyplot.pie [] []
  | Script.offers_vs_certifications => Pyplot.plot [] []
  | Script.satisfaction_heatmap => Pyplot.imshow []
  end.

(** * Properties *)

(** ** Masks and boolean indexing *)

Section MaskFacts.
Import Pandas.

Lemma mask_and_map {A : Type} (f g : A -> bool) (l : list A) :
  mask_and (map f l) (map g l) = map (fun a => f a && g a) l.
Proof.
  unfold mask_and.
  induction l as [|a l IH]; simpl; [reflexivity | now rewrite IH].
Qed.

Lemma getitem_mask_map (f : Row -> bool) (df : DataFrame) :
  getitem_mask df (map f df) = filter f df.
Proof.
  unfold getitem_mask.
  induction df as [|r df IH]; simpl; [reflexivity|].
  destruct (f r); simpl; now rewrite IH.
Qed.

Lemma dropna_In {A : Type} (s : Column A) (a : A) :
  In a (dropna s) <-> In (Some a) s.
Proof.
  induction s as [|[b|] s IH]; simpl.
  - tauto.
  - rewrite IH. split; intros [H|H]; auto; left; congruence.
  - rewrite IH. split; [auto | intros [H|H]; [discriminate | exact H]].
Qed.

End MaskFacts.

(** ** The filter as a row predicate *)

Section FilterFacts.
Import Pandas App Spec.

Lemma apply_filters_filter df selected_fields gpa_range :
  apply_filters df selected_fields gpa_range
  = filter (keeps selected_fields gpa_range) df.
Proof.
  unfold apply_filters, between, isin, ge, le, getitem.
  rewrite !map_map, mask_and_map, mask_and_map.
  apply getitem_mask_map.
Qed.

Lemma existsb_eqb_In (v : string) (l : list string) :
  existsb (String.eqb v) l = true <-> In v l.
Proof.
  rewrite existsb_exists. split.
  - intros (x & Hx & E). apply String.eqb_eq in E. now subst.
  - intros H. exists v. split; [exact H | apply String.eqb_refl].
Qed.

Lemma keeps_Retained categories gpa_range r :
  keeps categories gpa_range r = true <-> Retained categories gpa_range r.
Proof.
  unfold keeps, Retained.
  rewrite !andb_true_iff. split.
  - intros (Hf & Hlo & Hhi).
    destruct (Field_of_Study r) as [f|]; [|discriminate].
    destruct (University_GPA r) as [g|]; [|discriminate].
    split.
    + exists f. split; [reflexivity | now apply existsb_eqb_In].
    + exists g. repeat split; now apply Qle_bool_iff.
  - intros ((f & Ef & Hf) & (g & Eg & Hlo & Hhi)).
    rewrite Ef, Eg. repeat split.
    + now apply existsb_eqb_In.
    + now apply Qle_bool_iff.
    + now apply Qle_bool_iff.
Qed.

Lemma filter_Subsequence {A : Type} (f : A -> bool) (l : list A) :
  Subsequence (filter f l) l.
Proof.
  induction l as [|a l IH]; simpl.
  - constructor.
  - destruct (f a); now constructor.
Qed.

Lemma Subsequence_In {A : Type} (l1 l2 : list A) :
  Subsequence l1 l2 -> forall a, In a l1 -> In a l2.
Proof.
  induction 1 as [|x l1 l2 _ IH|x l1 l2 _ IH]; simpl; intros a Ha.
  - exact Ha.
  - right. now apply IH.
  - destruct Ha as [Ha|Ha]; [now left | right; now apply IH].
Qed.

End FilterFacts.

(** C1. The filter keeps exactly the rows whose field of study is in the
    category set and whose GPA lies in the closed interval: the output is
    the input with the other rows struck out (same rows, same
    multiplicity, same order); a row with a missing field or a missing GPA
    is never kept and never an error; with the range (3.0, 3.0) over rows
    with GPAs 2.9, 3.0, 3.0, 3.1 exactly the two rows at 3.0 stay. *)
Theorem filter_keeps_exactly_the_matching_rows :
  forall (df : DataFrame) (categories : list string) (gpa_range : Q * Q),
    (exists keep : Row -> bool,
        App.apply_filters df categories gpa_range = filter keep df /\
        forall r, keep r = true <-> Spec.Retained categories gpa_range r) /\
    (forall r, In r (App.apply_filters df categories gpa_range) <->
               In r df /\ Spec.Retained categories gpa_range r) /\
    (forall r, Field_of_Study r = None \/ University_GPA r = None ->
               ~ In r (App.apply_filters df categories gpa_range)) /\
    (forall r1 r2 r3 r4,
        Forall (fun r => exists f, Field_of_Study r = Some f /\ In f categories)
               [r1; r2; r3; r4] ->
        map University_GPA [r1; r2; r3; r4]
          = [Some 2.9; Some 3.0; Some 3.0; Some 3.1]%Q ->
        App.apply_filters [r1; r2; r3; r4] categories (3.0, 3.0)%Q = [r2; r3]).
Proof.
  intros df categories gpa_range.
  assert (Hin : forall r, In r (App.apply_filters df categories gpa_range) <->
                          In r df /\ Spec.Retained categories gpa_range r).
  { intros r. rewrite apply_filters_filter, filter_In.
    now rewrite keeps_Retained. }
  split; [|split; [exact Hin|split]].
  - exists (keeps categories gpa_range). split.
    + apply apply_filters_filter.
    + intros r. apply keeps_Retained.
  - intros r Hnull Hr. apply Hin in Hr.
    destruct Hr as (_ & (f & Ef & _) & (g & Eg & _)).
    destruct Hnull as [E|E]; congruence.
  - intros r1 r2 r3 r4 Hf Hg.
    rewrite apply_filters_filter.
    simpl in Hg. injection Hg as G1 G2 G3 G4.
    assert (Hk : forall r, In r [r1; r2; r3; r4] ->
               keeps categories (3.0, 3.0)%Q r
               = match University_GPA r with
                 | Some x => Qle_bool 3.0 x && Qle_bool x 3.0
                 | None => false
                 end).
    { intros r Hr. rewrite Forall_forall in Hf.
      destruct (Hf r Hr) as (f & Ef & Hc).
      unfold keeps. rewrite Ef.
      apply existsb_eqb_In in Hc. rewrite Hc. simpl.
      now destruct (University_GPA r). }
    simpl filter.
    rewrite (Hk r1), (Hk r2), (Hk r3), (Hk r4) by (simpl; tauto).
    rewrite G1, G2, G3, G4. reflexivity.
Qed.

(** The example of C1 on concrete rows. *)
Lemma filter_keeps_exactly_the_matching_rows_witness :
  App.apply_filters
    [student (Some "CS"%string) (Some 2.9%Q); student (Some "CS"%string) (Some 3.0%Q);
     student (Some "Art"%string) (Some 3.0%Q); student (Some "CS"%string) (Some 3.1%Q)]
    ["CS"%string; "Art"%string] (3.0, 3.0)%Q
  = [student (Some "CS"%string) (Some 3.0%Q); student (Some "Art"%string) (Some 3.0%Q)].
Proof.
  apply (filter_keeps_exactly_the_matching_rows [] ["CS"%string; "Art"%string] (0, 0)%Q).
  - repeat constructor; simpl; eauto.
  - reflexivity.
Defined.

(** ** One run of the script *)

Section RunFacts.
Import Pandas Pyplot Streamlit Script.

Lemma Stmt_eq_dec (s t : Stmt) : {s = t} + {s <> t}.
Proof. repeat decide equality. Defined.

(** What each statement leaves alone. *)
Lemma exec_df io s g g' :
  exec io s g = Some g' -> s <> LoadData -> df g' = df g.
Proof.
  destruct s; simpl; intros E Hs; try (injection E as <-; reflexivity).
  - contradiction.
  - destruct (gpa_min g), (gpa_max g); try discriminate.
    destruct (slider io _ _ _); [|discriminate].
    injection E as <-. reflexivity.
Qed.

Lemma exec_filtered io s g g' :
  exec io s g = Some g' -> s <> AssignFiltered -> filtered g' = filtered g.
Proof.
  destruct s; simpl; intros E Hs; try (injection E as <-; reflexivity).
  - destruct (gpa_min g), (gpa_max g); try discriminate.
    destruct (slider io _ _ _); [|discriminate].
    injection E as <-. reflexivity.
  - contradiction.
Qed.

Lemma exec_all_df io p : forall g g',
  exec_all io p g = Some g' -> ~ In LoadData p -> df g' = df g.
Proof.
  induction p as [|s p IH]; simpl; intros g g' E Hp.
  - now injection E as <-.
  - destruct (exec io s g) as [g1|] eqn:E1; [|discriminate].
    rewrite (IH _ _ E) by tauto.
    apply (exec_df io s); [exact E1 | intros ->; tauto].
Qed.

Lemma exec_all_app io p q g :
  exec_all io (p ++ q) g
  = match exec_all io p g with
    | Some g' => exec_all io q g'
    | None => None
    end.
Proof.
  revert g. induction p as [|s p IH]; simpl; intros g; [reflexivity|].
  destruct (exec io s g); [apply IH | reflexivity].
Qed.

Ltac run_script :=
  cbn [exec_all exec emit start df field_options selected_fields Script.gpa_min
       Script.gpa_max gpa_range filtered page app].

Lemma run_Some io g :
  run io = Some g ->
  exists lo hi rng,
    App.gpa_min (csv io) = Some lo /\ App.gpa_max (csv io) = Some hi /\
    slider io lo hi (lo, hi) = Some rng /\
    let opts := App.field_options (csv io) in
    let sel := multiselect io opts opts in
    let view := App.apply_filters (csv io) sel rng in
    g = mkGlobals (csv io) opts sel (Some lo) (Some hi) rng view
          (page_of opts lo hi view).
Proof.
  unfold run, script. run_script.
  destruct (App.gpa_min (csv io)) as [lo|]; [|discriminate].
  destruct (App.gpa_max (csv io)) as [hi|]; [|discriminate].
  destruct (slider io lo hi (lo, hi)) as [rng|] eqn:Es; [|discriminate].
  run_script.
  intros E. injection E as <-.
  exists lo, hi, rng. repeat split. exact Es.
Qed.

End RunFacts.

(** ** The filter engine *)

Section FilterEngine.
Import Pandas App Spec Streamlit Script.

Lemma filter_none {A : Type} (f : A -> bool) (l : list A) :
  (forall a, In a l -> f a = false) -> filter f l = [].
Proof.
  induction l as [|a l IH]; simpl; intros H; [reflexivity|].
  rewrite (H a) by now left. apply IH. intros b Hb. apply H. now right.
Qed.

Lemma keeps_no_category gpa_range r : keeps [] gpa_range r = false.
Proof. unfold keeps. now destruct (Field_of_Study r). Qed.

Lemma keeps_empty_interval categories lo hi r :
  (hi < lo)%Q -> keeps categories (lo, hi) r = false.
Proof.
  intros Hlt. apply not_true_is_false. intros K.
  apply keeps_Retained in K. destruct K as (_ & g & _ & Hlo & Hhi).
  simpl in Hlo, Hhi.
  apply (Qlt_not_le _ _ Hlt). now apply Qle_trans with g.
Qed.

Lemma keeps_ext categories categories' rng rng' r :
  (forall f, In f categories <-> In f categories') ->
  (fst rng == fst rng')%Q -> (snd rng == snd rng')%Q ->
  keeps categories rng r = keeps categories' rng' r.
Proof.
  intros Hc Hlo Hhi.
  apply eq_true_iff_eq. rewrite !keeps_Retained. unfold Retained.
  split; intros ((f & Ef & Hf) & (g & Eg & H1 & H2)); split.
  - exists f. split; [exact Ef | now apply Hc].
  - exists g. rewrite <- Hlo, <- Hhi. auto.
  - exists f. split; [exact Ef | now apply Hc].
  - exists g. rewrite Hlo, Hhi. auto.
Qed.

End FilterEngine.

(** C6. With no category selected the filter returns the empty table, and
    so it does when the lower end of the GPA interval lies above the upper
    end; in both cases the filtering statement completes (it raises
    nothing) and binds the empty table. *)
Theorem empty_selection_gives_empty_table :
  forall df : DataFrame,
    (forall gpa_range, App.apply_filters df [] gpa_range = []) /\
    (forall categories lo hi,
        (hi < lo)%Q -> App.apply_filters df categories (lo, hi) = []) /\
    (forall io g,
        Script.selected_fields g = [] \/
        (snd (Script.gpa_range g) < fst (Script.gpa_range g))%Q ->
        exists g', Script.exec io Script.AssignFiltered g = Some g' /\
                   Script.filtered g' = []).
Proof.
  intros df. split; [|split].
  - intros gpa_range. rewrite apply_filters_filter.
    apply filter_none. intros r _. apply keeps_no_category.
  - intros categories lo hi Hlt. rewrite apply_filters_filter.
    apply filter_none. intros r _. now apply keeps_empty_interval.
  - intros io g H. eexists. split; [reflexivity|]. simpl.
    rewrite apply_filters_filter. apply filter_none. intros r _.
    destruct H as [E|Hlt].
    + rewrite E. apply keeps_no_category.
    + destruct (Script.gpa_range g) as [lo hi]. now apply keeps_empty_interval.
Qed.

(** C6 at a table of two students: nothing selected, and the interval
    (3.5, 3.0). *)
Lemma empty_selection_gives_empty_table_witness :
  App.apply_filters
    [student (Some "CS"%string) (Some 3.2%Q); student (Some "Art"%string) (Some 3.4%Q)]
    [] (3.0, 3.5)%Q = [] /\
  App.apply_filters
    [student (Some "CS"%string) (Some 3.2%Q); student (Some "Art"%string) (Some 3.4%Q)]
    ["CS"%string; "Art"%string] (3.5, 3.0)%Q = [].
Proof.
  split.
  - exact (proj1 (empty_selection_gives_empty_table _) _).
  - apply (proj1 (proj2 (empty_selection_gives_empty_table _))). reflexivity.
Defined.

(** C7. The filter is a function of its three inputs alone and only of
    what they denote: the same table with the same set of categories and
    the same interval gives the same output, whatever the order or
    repetition in the category list; two runs of the script over the same
    file that end with the same selection and range bind the same filtered
    table; and the output is a subsequence of the input, so retained rows
    keep their relative order. *)
Theorem filter_is_deterministic_and_keeps_row_order :
  forall df : DataFrame,
    (forall categories categories' rng rng',
        (forall f, In f categories <-> In f categories') ->
        (fst rng == fst rng')%Q -> (snd rng == snd rng')%Q ->
        App.apply_filters df categories rng
        = App.apply_filters df categories' rng') /\
    (forall categories rng,
        Spec.Subsequence (App.apply_filters df categories rng) df) /\
    (forall io io' g g',
        Streamlit.csv io = df -> Streamlit.csv io' = df ->
        Script.run io = Some g -> Script.run io' = Some g' ->
        Script.selected_fields g = Script.selected_fields g' ->
        Script.gpa_range g = Script.gpa_range g' ->
        Script.filtered g = Script.filtered g').
Proof.
  intros df. split; [|split].
  - intros categories categories' rng rng' Hc Hlo Hhi.
    rewrite !apply_filters_filter. apply filter_ext.
    intros r. now apply keeps_ext.
  - intros categories rng. rewrite apply_filters_filter.
    apply filter_Subsequence.
  - intros io io' g g' Hio Hio' Hg Hg' Hsel Hrng.
    apply run_Some in Hg. apply run_Some in Hg'.
    destruct Hg as (lo & hi & rng & _ & _ & _ & ->).
    destruct Hg' as (lo' & hi' & rng' & _ & _ & _ & ->).
    cbn in Hsel, Hrng |- *. rewrite Hio, Hio' in *.
    now rewrite Hsel, Hrng.
Qed.

(** C7 on two category lists that name the same set and on two spellings
    of one interval. *)
Lemma filter_is_deterministic_and_keeps_row_order_witness :
  App.apply_filters
    [student (Some "CS"%string) (Some 3.2%Q); student (Some "Art"%string) (Some 3.4%Q)]
    ["CS"%string; "Art"%string] (3.0, 3.5)%Q
  = App.apply_filters
    [student (Some "CS"%string) (Some 3.2%Q); student (Some "Art"%string) (Some 3.4%Q)]
    ["Art"%string; "CS"%string; "Art"%string] (6 # 2, 7 # 2)%Q.
Proof.
  apply (proj1 (filter_is_deterministic_and_keeps_row_order _)).
  - intros f. simpl. tauto.
  - reflexivity.
  - reflexivity.
Defined.

(** ** The record table during a run *)

Section RecordTable.
Import Pandas App Spec Streamlit Script.

Lemma exec_all_after_load io p1 p2 g g' :
  exec_all io (p1 ++ LoadData :: p2) g = Some g' ->
  ~ In LoadData p2 -> df g' = csv io.
Proof.
  rewrite exec_all_app.
  destruct (exec_all io p1 g) as [g1|]; [|discriminate].
  simpl. intros E Hp2.
  now rewrite (exec_all_df _ _ _ _ E Hp2).
Qed.

Lemma In_firstn {A : Type} (n : nat) (l : list A) (a : A) :
  In a (firstn n l) -> In a l.
Proof.
  intros H. rewrite <- (firstn_skipn n l). apply in_or_app. now left.
Qed.

Lemma script_split :
  script = firstn 3 script ++ LoadData :: skipn 4 script.
Proof. reflexivity. Qed.

Lemma load_runs_once : ~ In LoadData (skipn 4 script).
Proof.
  cbn. intros H.
  repeat (destruct H as [H|H]; [discriminate H|]). exact H.
Qed.

Lemma prefix_after_load (n : nat) :
  (4 <= n)%nat ->
  firstn n script
  = firstn 3 script ++ LoadData :: firstn (n - 4) (skipn 4 script).
Proof.
  intros Hn. rewrite script_split at 1.
  rewrite firstn_app.
  rewrite (firstn_all2 (n := n)) by (cbn; lia).
  f_equal.
  replace (n - List.length (firstn 3 script))%nat with (S (n - 4))
    by (cbn; lia).
  reflexivity.
Qed.

End RecordTable.

(** C8. No stage mutates the loaded table: every statement other than the
    load leaves [df] as it was, so at every point of a run after the load,
    and at its end, after the filter and all ten charts, [df] is the table
    that was loaded; and the filtered view is made of rows of that table,
    in their order. *)
Theorem record_table_is_never_mutated :
  forall (io : Streamlit.Session) (g : Script.Globals),
    Script.run io = Some g ->
    Script.df g = Streamlit.csv io /\
    (forall s g1 g2,
        s <> Script.LoadData -> Script.exec io s g1 = Some g2 ->
        Script.df g2 = Script.df g1) /\
    (forall n gn,
        (4 <= n)%nat ->
        Script.exec_all io (firstn n Script.script) Script.start = Some gn ->
        Script.df gn = Streamlit.csv io) /\
    Spec.Subsequence (Script.filtered g) (Streamlit.csv io) /\
    (forall r, In r (Script.filtered g) -> In r (Streamlit.csv io)).
Proof.
  intros io g Hrun.
  assert (Hsub : Spec.Subsequence (Script.filtered g) (Streamlit.csv io)).
  { apply run_Some in Hrun. destruct Hrun as (lo & hi & rng & _ & _ & _ & ->).
    cbn. rewrite apply_filters_filter. apply filter_Subsequence. }
  split; [|split; [|split; [|split]]].
  - unfold Script.run in Hrun. rewrite script_split in Hrun.
    apply (exec_all_after_load _ _ _ _ _ Hrun). apply load_runs_once.
  - intros s g1 g2 Hs E. now apply (exec_df io s).
  - intros n gn Hn E. rewrite (prefix_after_load n Hn) in E.
    apply (exec_all_after_load _ _ _ _ _ E).
    intros H. apply In_firstn in H. now apply load_runs_once.
  - exact Hsub.
  - intros r. now apply Subsequence_In.
Qed.

(** C8 on the run of the sample session. *)
Lemma record_table_is_never_mutated_witness :
  Script.run demo_session = Some demo_globals /\
  Script.df demo_globals = demo_table /\
  Spec.Subsequence (Script.filtered demo_globals) demo_table.
Proof.
  assert (E : Script.run demo_session = Some demo_globals) by (vm_compute; reflexivity).
  split; [exact E|].
  split.
  - exact (proj1 (record_table_is_never_mutated demo_session demo_globals E)).
  - exact (proj1 (proj2 (proj2 (proj2
             (record_table_is_never_mutated demo_session demo_globals E))))).
Defined.

(** ** One filtered view per render *)

(** C9. In one run of the script the filtering statement occurs exactly
    once, no other statement rebinds [filtered], and the overview table and
    the ten figures on the page are all computed from that one filtered
    table, which is the filter applied to the loaded table with the
    selection and range of this run. *)
Theorem every_chart_shows_the_same_filtered_view :
  forall (io : Streamlit.Session) (g : Script.Globals),
    Script.run io = Some g ->
    count_occ Stmt_eq_dec Script.script Script.AssignFiltered = 1%nat /\
    (forall s g1 g2,
        s <> Script.AssignFiltered -> Script.exec io s g1 = Some g2 ->
        Script.filtered g2 = Script.filtered g1) /\
    Script.filtered g
    = App.apply_filters (Streamlit.csv io) (Script.selected_fields g)
        (Script.gpa_range g) /\
    Script.figures (Script.page g)
    = map (fun c => Script.plot_of c (Script.filtered g)) Script.charts /\
    Script.overview_tables (Script.page g)
    = [Streamlit.describe (Script.filtered g)].
Proof.
  intros io g Hrun.
  apply run_Some in Hrun. destruct Hrun as (lo & hi & rng & _ & _ & _ & ->).
  split; [reflexivity|].
  split; [intros s g1 g2 Hs E; now apply (exec_filtered io s)|].
  cbn [Script.filtered Script.selected_fields Script.gpa_range Script.page].
  repeat split.
Qed.

(** C9 on the run of the sample session. *)
Lemma every_chart_shows_the_same_filtered_view_witness :
  Script.run demo_session = Some demo_globals /\
  Script.figures (Script.page demo_globals)
  = map (fun c => Script.plot_of c (Script.filtered demo_globals)) Script.charts.
Proof.
  assert (E : Script.run demo_session = Some demo_globals) by (vm_compute; reflexivity).
  split; [exact E|].
  exact (proj1 (proj2 (proj2 (proj2
           (every_chart_shows_the_same_filtered_view demo_session demo_globals E))))).
Defined.

(** ** Sorting, distinct values, minimum and maximum *)

Section SortFacts.
Import Pandas.
Context {E : Type} (leb : E -> E -> bool).

Lemma insert_Permutation (x : E) (l : list E) :
  Permutation (insert leb x l) (x :: l).
Proof.
  induction l as [|y l IH]; simpl.
  - apply Permutation_refl.
  - destruct (leb x y).
    + apply Permutation_refl.
    + apply perm_trans with (y :: x :: l).
      * now apply perm_skip.
      * apply perm_swap.
Qed.

Lemma sorted_Permutation (l : list E) : Permutation (sorted leb l) l.
Proof.
  induction l as [|x l IH]; simpl.
  - apply perm_nil.
  - apply perm_trans with (x :: sorted leb l).
    + apply insert_Permutation.
    + now apply perm_skip.
Qed.

Lemma nargsort_Permutation (ascending : bool) (l : list E) :
  Permutation (nargsort leb ascending l) l.
Proof.
  unfold nargsort. destruct ascending.
  - apply sorted_Permutation.
  - apply perm_trans with (sorted leb (rev l)).
    + apply Permutation_sym, Permutation_rev.
    + apply perm_trans with (rev l).
      * apply sorted_Permutation.
      * apply Permutation_sym, Permutation_rev.
Qed.

Lemma sorted_In (l : list E) (x : E) : In x (sorted leb l) <-> In x l.
Proof.
  split; apply Permutation_in;
    [apply sorted_Permutation | apply Permutation_sym, sorted_Permutation].
Qed.

Hypothesis leb_total : forall a b, leb a b = true \/ leb b a = true.
Hypothesis leb_trans :
  forall a b c, leb a b = true -> leb b c = true -> leb a c = true.

Let le (a b : E) : Prop := leb a b = true.

Lemma insert_StronglySorted (x : E) (l : list E) :
  StronglySorted le l -> StronglySorted le (insert leb x l).
Proof.
  induction 1 as [|y l Hl IH Hy]; simpl.
  - constructor; constructor.
  - destruct (leb x y) eqn:Exy.
    + constructor.
      * now constructor.
      * constructor; [exact Exy|].
        rewrite Forall_forall in Hy |- *. intros z Hz.
        apply leb_trans with y; [exact Exy | now apply Hy].
    + constructor; [exact IH|].
      rewrite Forall_forall in Hy |- *. intros z Hz.
      apply (Permutation_in _ (insert_Permutation x l)) in Hz.
      destruct Hz as [<-|Hz].
      * destruct (leb_total x y) as [H|H]; [congruence | exact H].
      * now apply Hy.
Qed.

Lemma sorted_StronglySorted (l : list E) : StronglySorted le (sorted leb l).
Proof.
  induction l as [|x l IH]; simpl.
  - constructor.
  - now apply insert_StronglySorted.
Qed.

Lemma StronglySorted_snoc (R : E -> E -> Prop) (l : list E) (x : E) :
  StronglySorted R l -> Forall (fun y => R y x) l ->
  StronglySorted R (l ++ [x]).
Proof.
  induction 1 as [|y l Hl IH Hy]; simpl; intros Hx.
  - constructor; constructor.
  - inversion Hx as [|? ? Hyx Hlx]; subst.
    constructor.
    + now apply IH.
    + apply Forall_app. split; [exact Hy | now constructor].
Qed.

Lemma StronglySorted_rev (R : E -> E -> Prop) (l : list E) :
  StronglySorted R l -> StronglySorted (fun a b => R b a) (rev l).
Proof.
  induction 1 as [|y l Hl IH Hy]; simpl.
  - constructor.
  - apply StronglySorted_snoc; [exact IH|].
    rewrite Forall_forall in Hy |- *. intros z Hz.
    apply Hy. now apply in_rev.
Qed.

(** Ascending order puts small before large, descending large before
    small. *)
Lemma nargsort_StronglySorted (ascending : bool) (l : list E) :
  StronglySorted (fun a b => if ascending then le a b else le b a)
                 (nargsort leb ascending l).
Proof.
  unfold nargsort. destruct ascending.
  - apply sorted_StronglySorted.
  - apply StronglySorted_rev with (R := le). apply sorted_StronglySorted.
Qed.

End SortFacts.

Section UniqueFacts.
Import Pandas.
Context {A : Type} (eqb : A -> A -> bool).

Lemma unique_incl (l : list A) (a : A) : In a (unique eqb l) -> In a l.
Proof.
  induction l as [|x l IH]; simpl; [tauto|].
  intros [H|H]; [now left|].
  apply filter_In in H. right. now apply IH.
Qed.

Hypothesis eqb_refl : forall a, eqb a a = true.
Hypothesis eqb_trans :
  forall a b c, eqb a b = true -> eqb b c = true -> eqb a c = true.

Lemma unique_covers (l : list A) (a : A) :
  In a l -> exists a', In a' (unique eqb l) /\ eqb a' a = true.
Proof.
  induction l as [|x l IH]; simpl; [tauto|].
  intros [->|H].
  - exists a. split; [now left | apply eqb_refl].
  - destruct (IH H) as (a' & Ha' & E).
    destruct (eqb x a') eqn:Exa.
    + exists x. split; [now left | now apply eqb_trans with a'].
    + exists a'. split; [|exact E].
      right. apply filter_In. split; [exact Ha' | now rewrite Exa].
Qed.

Lemma unique_distinct (l : list A) :
  ForallOrdPairs (fun a b => eqb a b = false) (unique eqb l).
Proof.
  induction l as [|x l IH]; simpl.
  - constructor.
  - constructor.
    + rewrite Forall_forall. intros y Hy.
      apply filter_In in Hy. destruct Hy as [_ Hy].
      now apply negb_true_iff.
    + clear -IH. induction IH as [|a m Ha Hm IHm]; simpl.
      * constructor.
      * destruct (negb (eqb x a)); [|exact IHm].
        constructor; [|exact IHm].
        rewrite Forall_forall in Ha |- *. intros y Hy.
        apply filter_In in Hy. now apply Ha.
Qed.

End UniqueFacts.

Section StringKeys.
Import Pandas.

Lemma unique_string_In (l : list string) (a : string) :
  In a (unique String.eqb l) <-> In a l.
Proof.
  split; [apply unique_incl|]. intros H.
  destruct (unique_covers String.eqb String.eqb_refl) with (l := l) (a := a)
    as (a' & Ha' & E).
  - intros x y z Hxy Hyz. apply String.eqb_eq in Hxy, Hyz. subst.
    apply String.eqb_refl.
  - exact H.
  - apply String.eqb_eq in E. now subst.
Qed.

Lemma unique_string_NoDup (l : list string) : NoDup (unique String.eqb l).
Proof.
  pose proof (unique_distinct String.eqb l) as H.
  induction H as [|a m Ha Hm IH]; constructor; [|exact IH].
  intros Hin. rewrite Forall_forall in Ha.
  specialize (Ha a Hin). now rewrite String.eqb_refl in Ha.
Qed.

End StringKeys.

Section MinMaxFacts.
Import Pandas.
Local Open Scope Q_scope.

Lemma qmin_le_l a b : qmin a b <= a.
Proof.
  unfold qmin. destruct (Qle_bool a b) eqn:E.
  - apply Qle_refl.
  - destruct (Qlt_le_dec b a) as [H|H].
    + now apply Qlt_le_weak.
    + apply Qle_bool_iff in H. congruence.
Qed.

Lemma qmin_le_r a b : qmin a b <= b.
Proof.
  unfold qmin. destruct (Qle_bool a b) eqn:E.
  - now apply Qle_bool_iff.
  - apply Qle_refl.
Qed.

Lemma qmax_ge_l a b : a <= qmax a b.
Proof.
  unfold qmax. destruct (Qle_bool a b) eqn:E.
  - now apply Qle_bool_iff.
  - apply Qle_refl.
Qed.

Lemma qmax_ge_r a b : b <= qmax a b.
Proof.
  unfold qmax. destruct (Qle_bool a b) eqn:E.
  - apply Qle_refl.
  - destruct (Qlt_le_dec b a) as [H|H].
    + now apply Qlt_le_weak.
    + apply Qle_bool_iff in H. congruence.
Qed.

Lemma fold_qmin_In xs : forall x, In (fold_left qmin xs x) (x :: xs).
Proof.
  induction xs as [|y xs IH]; intros x; simpl; [now left|].
  destruct (IH (qmin x y)) as [H|H]; [|now right; right].
  rewrite <- H. unfold qmin. destruct (Qle_bool x y); auto.
Qed.

Lemma fold_qmax_In xs : forall x, In (fold_left qmax xs x) (x :: xs).
Proof.
  induction xs as [|y xs IH]; intros x; simpl; [now left|].
  destruct (IH (qmax x y)) as [H|H]; [|now right; right].
  rewrite <- H. unfold qmax. destruct (Qle_bool x y); auto.
Qed.

Lemma fold_qmin_le xs : forall x y,
  In y (x :: xs) -> fold_left qmin xs x <= y.
Proof.
  induction xs as [|z xs IH]; intros x y; simpl.
  - intros [<-|[]]. apply Qle_refl.
  - intros [<-|[<-|H]].
    + apply Qle_trans with (qmin x z); [apply IH; now left | apply qmin_le_l].
    + apply Qle_trans with (qmin x z); [apply IH; now left | apply qmin_le_r].
    + apply IH. now right.
Qed.

Lemma fold_qmax_ge xs : forall x y,
  In y (x :: xs) -> y <= fold_left qmax xs x.
Proof.
  induction xs as [|z xs IH]; intros x y; simpl.
  - intros [<-|[]]. apply Qle_refl.
  - intros [<-|[<-|H]].
    + apply Qle_trans with (qmax x z); [apply qmax_ge_l | apply IH; now left].
    + apply Qle_trans with (qmax x z); [apply qmax_ge_r | apply IH; now left].
    + apply IH. now right.
Qed.

Lemma dropna_nil {A : Type} (s : Column A) :
  dropna s = [] <-> forall c, In c s -> c = None.
Proof.
  induction s as [|[a|] s IH]; simpl.
  - split; [intros _ c [] | reflexivity].
  - split; [discriminate|]. intros H.
    specialize (H (Some a) (or_introl eq_refl)). discriminate.
  - rewrite IH. split.
    + intros H c [<-|Hc]; [reflexivity | now apply H].
    + intros H c Hc. apply H. now right.
Qed.

Lemma min_None (s : Column Q) : min s = None <-> forall c, In c s -> c = None.
Proof.
  rewrite <- dropna_nil. unfold min.
  destruct (dropna s); split; congruence.
Qed.

Lemma max_None (s : Column Q) : max s = None <-> forall c, In c s -> c = None.
Proof.
  rewrite <- dropna_nil. unfold max.
  destruct (dropna s); split; congruence.
Qed.

Lemma min_Some (s : Column Q) (lo : Q) :
  min s = Some lo ->
  In (Some lo) s /\ forall g, In (Some g) s -> lo <= g.
Proof.
  unfold min. destruct (dropna s) as [|x xs] eqn:E; [discriminate|].
  intros H. injection H as <-. split.
  - apply dropna_In. rewrite E. apply fold_qmin_In.
  - intros g Hg. apply fold_qmin_le. rewrite <- E. now apply dropna_In.
Qed.

Lemma max_Some (s : Column Q) (hi : Q) :
  max s = Some hi ->
  In (Some hi) s /\ forall g, In (Some g) s -> g <= hi.
Proof.
  unfold max. destruct (dropna s) as [|x xs] eqn:E; [discriminate|].
  intros H. injection H as <-. split.
  - apply dropna_In. rewrite E. apply fold_qmax_In.
  - intros g Hg. apply fold_qmax_ge. rewrite <- E. now apply dropna_In.
Qed.

Lemma gpa_column_all_missing (df : DataFrame) :
  (forall c, In c (getitem df University_GPA) -> c = None) <->
  (forall r, In r df -> University_GPA r = None).
Proof.
  unfold getitem. split.
  - intros H r Hr. apply H. now apply in_map.
  - intros H c Hc. apply in_map_iff in Hc.
    destruct Hc as (r & <- & Hr). now apply H.
Qed.

Lemma gpa_column_has_value (df : DataFrame) :
  (exists r g, In r df /\ University_GPA r = Some g) ->
  App.gpa_min df <> None /\ App.gpa_max df <> None.
Proof.
  intros (r & g & Hr & Eg).
  unfold App.gpa_min, App.gpa_max.
  split; intros H.
  - pose proof (proj1 (gpa_column_all_missing df) (proj1 (min_None _) H)) as H'.
    rewrite (H' r Hr) in Eg. discriminate.
  - pose proof (proj1 (gpa_column_all_missing df) (proj1 (max_None _) H)) as H'.
    rewrite (H' r Hr) in Eg. discriminate.
Qed.

End MinMaxFacts.

(** ** The defaults of the GPA slider *)

(** C10. The slider bounds exist exactly when some row has a GPA: then
    [gpa_min] and [gpa_max] are the least and the greatest GPA present in
    the table, the least not above the greatest; over a table with no GPA
    at all (empty, or every cell missing) both are undefined (NaN).  So the
    default range [(gpa_min, gpa_max)] is a pair of numbers only under that
    precondition, and its two ends are defined or undefined together. *)
Theorem gpa_bounds_need_a_present_gpa :
  forall df : DataFrame,
    ((forall r, In r df -> University_GPA r = None) <->
     App.gpa_min df = None /\ App.gpa_max df = None) /\
    ((exists r g, In r df /\ University_GPA r = Some g) ->
     exists lo hi,
       App.gpa_min df = Some lo /\ App.gpa_max df = Some hi /\
       In (Some lo) (Pandas.getitem df University_GPA) /\
       In (Some hi) (Pandas.getitem df University_GPA) /\
       forall r g, In r df -> University_GPA r = Some g ->
                   (lo <= g)%Q /\ (g <= hi)%Q) /\
    ((exists lo, App.gpa_min df = Some lo) \/
     (exists hi, App.gpa_max df = Some hi) ->
     exists r g, In r df /\ University_GPA r = Some g) /\
    (App.gpa_min df = None <-> App.gpa_max df = None) /\
    (forall lo hi, App.gpa_min df = Some lo -> App.gpa_max df = Some hi ->
                   (lo <= hi)%Q).
Proof.
  intros df.
  assert (Hnone : (forall r, In r df -> University_GPA r = None) <->
                  App.gpa_min df = None /\ App.gpa_max df = None).
  { rewrite <- gpa_column_all_missing. unfold App.gpa_min, App.gpa_max.
    rewrite min_None, max_None. tauto. }
  assert (Hboth : App.gpa_min df = None <-> App.gpa_max df = None).
  { unfold App.gpa_min, App.gpa_max. rewrite min_None, max_None. tauto. }
  split; [exact Hnone | split; [|split; [|split; [exact Hboth|]]]].
  - intros Hex. destruct (gpa_column_has_value df Hex) as [Hmin Hmax].
    destruct (App.gpa_min df) as [lo|] eqn:Elo; [|congruence].
    destruct (App.gpa_max df) as [hi|] eqn:Ehi; [|congruence].
    apply min_Some in Elo. apply max_Some in Ehi.
    destruct Elo as [Hlo Hle]. destruct Ehi as [Hhi Hge].
    exists lo, hi.
    split; [reflexivity | split; [reflexivity | split; [exact Hlo | split; [exact Hhi|]]]].
    intros r g Hr Eg.
    assert (Hg : In (Some g) (Pandas.getitem df University_GPA)).
    { rewrite <- Eg. unfold Pandas.getitem. now apply in_map. }
    split; [now apply Hle | now apply Hge].
  - intros [(lo & Elo)|(hi & Ehi)].
    + apply min_Some in Elo. destruct Elo as [Hlo _].
      unfold Pandas.getitem in Hlo. apply in_map_iff in Hlo.
      destruct Hlo as (r & Er & Hr). now exists r, lo.
    + apply max_Some in Ehi. destruct Ehi as [Hhi _].
      unfold Pandas.getitem in Hhi. apply in_map_iff in Hhi.
      destruct Hhi as (r & Er & Hr). now exists r, hi.
  - intros lo hi Elo Ehi.
    apply min_Some in Elo. apply max_Some in Ehi.
    destruct Elo as [_ Hle]. destruct Ehi as [Hhi _]. now apply Hle.
Qed.

(** C10 on the sample table (GPAs 3.2, 3.4, 2.8) and on a table whose only
    row has no GPA. *)
Lemma gpa_bounds_need_a_present_gpa_witness :
  (exists lo hi, App.gpa_min demo_table = Some lo /\
                 App.gpa_max demo_table = Some hi) /\
  App.gpa_min [student (Some "CS"%string) None] = None.
Proof.
  split.
  - destruct (proj1 (proj2 (gpa_bounds_need_a_present_gpa demo_table)))
      as (lo & hi & Hlo & Hhi & _).
    + exists (student (Some "CS"%string) (Some 3.2%Q)), 3.2%Q.
      split; [now left | reflexivity].
    + now exists lo, hi.
  - apply (proj1 (gpa_bounds_need_a_present_gpa [student (Some "CS"%string) None])).
    intros r [<-|[]]. reflexivity.
Defined.

(** ** The default selection *)

Section DefaultSelection.
Import Pandas App Spec.

Lemma field_options_In (df : DataFrame) (f : string) :
  In f (field_options df) <-> exists r, In r df /\ Field_of_Study r = Some f.
Proof.
  unfold field_options, getitem.
  rewrite sorted_In, unique_string_In, dropna_In, in_map_iff.
  split; intros (r & H1 & H2); exists r; auto.
Qed.

Lemma filter_all {A : Type} (f : A -> bool) (l : list A) :
  (forall a, In a l -> f a = true) -> filter f l = l.
Proof.
  induction l as [|a l IH]; simpl; intros H; [reflexivity|].
  rewrite (H a) by now left. f_equal. apply IH. intros b Hb. apply H. now right.
Qed.

Lemma keeps_default (df : DataFrame) (lo hi : Q) (r : Row) :
  gpa_min df = Some lo -> gpa_max df = Some hi -> In r df ->
  keeps (field_options df) (lo, hi) r = complete r.
Proof.
  intros Elo Ehi Hr. unfold keeps, complete, notna, isna.
  destruct (Field_of_Study r) as [f|] eqn:Ef; [|reflexivity].
  destruct (University_GPA r) as [g|] eqn:Eg;
    [|simpl; now rewrite andb_false_r].
  assert (Hf : existsb (String.eqb f) (field_options df) = true).
  { apply existsb_eqb_In, field_options_In. now exists r. }
  assert (Hg : In (Some g) (getitem df University_GPA)).
  { rewrite <- Eg. unfold getitem. now apply in_map. }
  apply min_Some in Elo. apply max_Some in Ehi.
  rewrite Hf. simpl.
  rewrite (proj2 (Qle_bool_iff lo g)) by now apply Elo.
  rewrite (proj2 (Qle_bool_iff g hi)) by now apply Ehi.
  reflexivity.
Qed.

End DefaultSelection.

(** C3, as the code has it.  With every observed category selected and the
    full observed GPA range, the filter returns the table without its
    incomplete rows: a row stays exactly when it has both a field of study
    and a GPA.  Over a table in which no row lacks either, the result is the
    table itself. *)
Theorem default_filter_drops_exactly_the_incomplete_rows :
  forall (df : DataFrame) (lo hi : Q),
    App.gpa_min df = Some lo -> App.gpa_max df = Some hi ->
    App.apply_filters df (App.field_options df) (lo, hi)
    = filter Spec.complete df /\
    ((forall r, In r df ->
                Field_of_Study r <> None /\ University_GPA r <> None) ->
     App.apply_filters df (App.field_options df) (lo, hi) = df).
Proof.
  intros df lo hi Elo Ehi.
  assert (E : App.apply_filters df (App.field_options df) (lo, hi)
              = filter Spec.complete df).
  { rewrite apply_filters_filter. apply filter_ext_in.
    intros r Hr. now apply keeps_default. }
  split; [exact E|].
  intros Hall. rewrite E. apply filter_all.
  intros r Hr. destruct (Hall r Hr) as [Hf Hg].
  unfold Spec.complete.
  destruct (Field_of_Study r); [|congruence].
  destruct (University_GPA r); [reflexivity | congruence].
Qed.

(** C3 on the sample table, which has no incomplete row. *)
Lemma default_filter_drops_exactly_the_incomplete_rows_witness :
  App.apply_filters demo_table (App.field_options demo_table) (2.8, 3.4)%Q
  = demo_table.
Proof.
  apply (default_filter_drops_exactly_the_incomplete_rows demo_table 2.8 3.4
           eq_refl eq_refl).
  intros r [<-|[<-|[<-|[]]]]; split; discriminate.
Defined.

(** C3 as stated fails: over a table with a row that lacks a field of study
    (or a GPA), the default selection and the full observed range drop that
    row, so the result differs from the table. *)
Lemma default_filter_is_not_identity :
  (App.gpa_min table_missing_field = Some 3.0%Q /\
   App.gpa_max table_missing_field = Some 3.5%Q /\
   App.apply_filters table_missing_field
     (App.field_options table_missing_field) (3.0, 3.5)%Q
   = [student (Some "CS"%string) (Some 3.0%Q)] /\
   App.apply_filters table_missing_field
     (App.field_options table_missing_field) (3.0, 3.5)%Q
   <> table_missing_field) /\
  (App.gpa_min table_missing_gpa = Some 3.0%Q /\
   App.gpa_max table_missing_gpa = Some 3.0%Q /\
   App.apply_filters table_missing_gpa
     (App.field_options table_missing_gpa) (3.0, 3.0)%Q
   = [student (Some "CS"%string) (Some 3.0%Q)] /\
   App.apply_filters table_missing_gpa
     (App.field_options table_missing_gpa) (3.0, 3.0)%Q
   <> table_missing_gpa).
Proof.
  repeat split; try reflexivity; discriminate.
Qed.

(** ** Grouping *)

Section GroupFacts.
Import Pandas Spec.
Context {K : Type} (keqb kleb : K -> K -> bool).
Variables (key : Row -> option K).

Lemma group_cells_rows {V : Type} (val : Row -> option V) (data : DataFrame) (k : K) :
  group_cells keqb (getitem data key) (getitem data val) k
  = getitem (group_rows keqb key k data) val.
Proof.
  unfold group_cells, group_rows, getitem.
  induction data as [|r data IH]; simpl; [reflexivity|].
  destruct (key r) as [k'|]; [destruct (keqb k' k)|]; simpl; now rewrite IH.
Qed.

Lemma dropna_filter_has (data : DataFrame) :
  dropna (getitem (filter (has key) data) key) = dropna (getitem data key).
Proof.
  unfold getitem, has, notna, isna.
  induction data as [|r data IH]; simpl; [reflexivity|].
  destruct (key r) as [k|] eqn:E; simpl; rewrite ?E; now rewrite IH.
Qed.

Lemma group_rows_filter_has (data : DataFrame) (k : K) :
  group_rows keqb key k (filter (has key) data) = group_rows keqb key k data.
Proof.
  unfold group_rows, has, notna, isna.
  induction data as [|r data IH]; simpl; [reflexivity|].
  destruct (key r) as [k'|] eqn:E; simpl; rewrite ?E; now rewrite IH.
Qed.

Lemma groupby_mean_rows (val : Row -> option Q) (data : DataFrame) :
  groupby_mean keqb kleb (getitem data key) (getitem data val)
  = map (fun k => (k, mean (getitem (group_rows keqb key k data) val)))
        (sorted kleb (unique keqb (dropna (getitem data key)))).
Proof.
  unfold groupby_mean, group_keys. apply map_ext.
  intros k. now rewrite group_cells_rows.
Qed.

(** Rows with a missing key do not change a grouped mean. *)
Lemma groupby_mean_filter_has (val : Row -> option Q) (data : DataFrame) :
  groupby_mean keqb kleb (getitem (filter (has key) data) key)
                         (getitem (filter (has key) data) val)
  = groupby_mean keqb kleb (getitem data key) (getitem data val).
Proof.
  rewrite !groupby_mean_rows, dropna_filter_has.
  apply map_ext. intros k. now rewrite group_rows_filter_has.
Qed.

Lemma value_counts_filter_has (data : DataFrame) :
  value_counts keqb (getitem (filter (has key) data) key)
  = value_counts keqb (getitem data key).
Proof. unfold value_counts. now rewrite dropna_filter_has. Qed.

Lemma index_groupby_mean (val : Row -> option Q) (data : DataFrame) :
  index (groupby_mean keqb kleb (getitem data key) (getitem data val))
  = sorted kleb (unique keqb (dropna (getitem data key))).
Proof.
  unfold index, groupby_mean, group_keys. rewrite map_map. simpl.
  apply map_id.
Qed.

Hypothesis keqb_refl : forall a, keqb a a = true.
Hypothesis keqb_trans :
  forall a b c, keqb a b = true -> keqb b c = true -> keqb a c = true.

(** Any reordering of a grouped mean still maps each group to its mean. *)
Lemma mean_per_group_Permutation (val : Row -> option Q) (data : DataFrame)
    (agg : Series K (option Q)) :
  Permutation agg (groupby_mean keqb kleb (getitem data key) (getitem data val)) ->
  mean_per_group keqb key val agg data.
Proof.
  intros Hp.
  assert (Hidx : forall k, In k (index agg) <->
                   In k (unique keqb (dropna (getitem data key)))).
  { intros k.
    transitivity
      (In k (index (groupby_mean keqb kleb (getitem data key) (getitem data val)))).
    - unfold index. split; apply Permutation_in;
        [|apply Permutation_sym]; now apply Permutation_map.
    - rewrite index_groupby_mean. apply sorted_In. }
  split; [|split].
  - intros k v Hkv. apply (Permutation_in _ Hp) in Hkv.
    rewrite groupby_mean_rows in Hkv. apply in_map_iff in Hkv.
    destruct Hkv as (k' & E & _). now injection E as <- <-.
  - intros k Hk. apply Hidx, unique_incl, dropna_In in Hk.
    unfold getitem in Hk. apply in_map_iff in Hk.
    destruct Hk as (r & E & Hr). now exists r.
  - intros r k Hr E.
    destruct (unique_covers keqb keqb_refl keqb_trans
                (dropna (getitem data key)) k) as (k' & Hk' & Ek').
    + apply dropna_In. rewrite <- E. unfold getitem. now apply in_map.
    + exists k'. split; [now apply Hidx | exact Ek'].
Qed.

End GroupFacts.

(** ** Sorting a Series by value *)

Section SortValuesFacts.
Import Pandas Spec.
Context {K : Type}.

Lemma value_leb_total (a b : option Q) :
  value_leb a b = true \/ value_leb b a = true.
Proof.
  destruct a as [x|], b as [y|]; simpl; auto.
  destruct (Qlt_le_dec y x) as [H|H].
  - right. apply Qle_bool_iff. now apply Qlt_le_weak.
  - left. now apply Qle_bool_iff.
Qed.

Lemma value_leb_trans (a b c : option Q) :
  value_leb a b = true -> value_leb b c = true -> value_leb a c = true.
Proof.
  destruct a as [x|], b as [y|], c as [z|]; simpl; try congruence.
  rewrite !Qle_bool_iff. apply Qle_trans.
Qed.

Lemma notna_isna_Permutation (s : Series K (option Q)) :
  Permutation (filter (fun p => notna (snd p)) s
               ++ filter (fun p => isna (snd p)) s) s.
Proof.
  induction s as [|[k [x|]] s IH]; simpl.
  - apply perm_nil.
  - now apply perm_skip.
  - apply Permutation_sym, Permutation_cons_app, Permutation_sym, IH.
Qed.

Lemma sort_values_Permutation (ascending : bool) (s : Series K (option Q)) :
  Permutation (sort_values ascending s) s.
Proof.
  unfold sort_values.
  apply perm_trans with (filter (fun p => notna (snd p)) s
                         ++ filter (fun p => isna (snd p)) s).
  - apply Permutation_app_tail, nargsort_Permutation.
  - apply notna_isna_Permutation.
Qed.

(** The numbers come first, the undefined values last. *)
Lemma sort_values_nan_last (ascending : bool) (s : Series K (option Q)) :
  exists nums nans,
    sort_values ascending s = nums ++ nans /\
    Forall (fun p => snd p <> None) nums /\
    Forall (fun p => snd p = None) nans.
Proof.
  exists (nargsort (fun p q => value_leb (snd p) (snd q)) ascending
            (filter (fun p => notna (snd p)) s)),
         (filter (fun p => isna (snd p)) s).
  split; [reflexivity|]. split.
  - eapply Permutation_Forall.
    + apply Permutation_sym, nargsort_Permutation.
    + rewrite Forall_forall. intros p Hp. apply filter_In in Hp.
      destruct Hp as [_ Hp]. now destruct (snd p).
  - rewrite Forall_forall. intros p Hp. apply filter_In in Hp.
    destruct Hp as [_ Hp]. now destruct (snd p).
Qed.

Lemma dropna_app {A : Type} (s1 s2 : Column A) :
  dropna (s1 ++ s2) = dropna s1 ++ dropna s2.
Proof.
  induction s1 as [|[a|] s1 IH]; simpl; [reflexivity | now rewrite IH | exact IH].
Qed.

Lemma dropna_values_isna (s : Series K (option Q)) :
  dropna (values (filter (fun p => isna (snd p)) s)) = [].
Proof.
  unfold values. induction s as [|[k [x|]] s IH]; simpl; auto.
Qed.

Lemma descending_dropna (l : Series K (option Q)) :
  StronglySorted (fun a b => value_leb (snd b) (snd a) = true) l ->
  descending (dropna (values l)).
Proof.
  unfold descending, values.
  induction 1 as [|[k v] l Hl IH Hv]; simpl.
  - constructor.
  - destruct v as [x|]; [|exact IH].
    constructor; [exact IH|].
    rewrite Forall_forall in Hv |- *. intros y Hy.
    apply dropna_In, in_map_iff in Hy. destruct Hy as (q & Eq & Hq).
    specialize (Hv q Hq). simpl in Hv. rewrite Eq in Hv. simpl in Hv.
    now apply Qle_bool_iff.
Qed.

Lemma sort_values_descending (s : Series K (option Q)) :
  descending (dropna (values (sort_values false s))).
Proof.
  unfold sort_values, values. rewrite map_app, dropna_app.
  fold (values (filter (fun p : K * option Q => isna (snd p)) s)).
  rewrite dropna_values_isna, app_nil_r.
  apply descending_dropna.
  exact (nargsort_StronglySorted
           (fun p q : K * option Q => value_leb (snd p) (snd q))
           (fun a b => value_leb_total (snd a) (snd b))
           (fun a b c => value_leb_trans (snd a) (snd b) (snd c))
           false _).
Qed.

End SortValuesFacts.

Section MeanFacts.
Import Pandas.
Local Open Scope Q_scope.

Lemma mean_None (s : Column Q) :
  mean s = None <-> forall c, In c s -> c = None.
Proof.
  rewrite <- dropna_nil. unfold mean.
  destruct (dropna s); split; congruence.
Qed.

Lemma mean_Some (s : Column Q) (m : Q) :
  mean s = Some m ->
  dropna s <> [] /\
  m == sum (dropna s) / inject_Z (Z.of_nat (List.length (dropna s))).
Proof.
  unfold mean. destruct (dropna s) as [|x xs] eqn:E; [discriminate|].
  intros H. injection H as H. split; [discriminate|].
  rewrite <- H. exact (Qred_correct _).
Qed.

End MeanFacts.

(** ** Average starting salary by field *)

(** C4, as the code has it.  [avg_salary_by_field] has one entry per field
    of study present in the table, each field once, mapped to the mean of
    the starting salaries present in its rows (undefined when the group has
    none); the defined means come first, in descending order with equal
    means allowed, the undefined ones last; on the example table it yields
    CS at 110 followed by Art at 60. *)
Theorem salary_by_field_is_group_mean_sorted_descending :
  forall data : DataFrame,
    Spec.mean_per_group String.eqb Field_of_Study Starting_Salary
      (App.avg_salary_by_field data) data /\
    NoDup (Pandas.index (App.avg_salary_by_field data)) /\
    Spec.descending (Pandas.dropna (Pandas.values (App.avg_salary_by_field data))) /\
    (exists nums nans,
        App.avg_salary_by_field data = nums ++ nans /\
        Forall (fun p => snd p <> None) nums /\
        Forall (fun p => snd p = None) nans) /\
    App.avg_salary_by_field salary_example
    = [("CS"%string, Some 110%Q); ("Art"%string, Some 60%Q)].
Proof.
  intros data. unfold App.avg_salary_by_field.
  split; [|split; [|split; [|split]]].
  - apply mean_per_group_Permutation with (kleb := String.leb).
    + apply String.eqb_refl.
    + intros a b c Hab Hbc. apply String.eqb_eq in Hab, Hbc. subst.
      apply String.eqb_refl.
    + apply sort_values_Permutation.
  - apply Permutation_NoDup
      with (l := Pandas.unique String.eqb
                   (Pandas.dropna (Pandas.getitem data Field_of_Study))).
    + apply Permutation_sym.
      apply perm_trans
        with (Pandas.index
                (Pandas.groupby_mean String.eqb String.leb
                   (Pandas.getitem data Field_of_Study)
                   (Pandas.getitem data Starting_Salary))).
      * unfold Pandas.index. apply Permutation_map, sort_values_Permutation.
      * rewrite index_groupby_mean. apply sorted_Permutation.
    + apply unique_string_NoDup.
  - apply sort_values_descending.
  - apply sort_values_nan_last.
  - reflexivity.
Qed.

(** C4 on the example table: the entry of CS is the mean of the salaries of
    the CS rows. *)
Lemma salary_by_field_is_group_mean_sorted_descending_witness :
  Some 110%Q
  = Pandas.mean
      (Pandas.getitem
         (Spec.group_rows String.eqb Field_of_Study "CS"%string salary_example)
         Starting_Salary).
Proof.
  apply (proj1 (proj1 (salary_by_field_is_group_mean_sorted_descending
                         salary_example))
           "CS"%string (Some 110%Q)).
  left. reflexivity.
Defined.

(** C4 as stated fails on a tie: two fields with the same mean are not in
    strictly descending order, and they come out in key order (Art before
    CS) although CS was seen first. *)
Lemma salary_ties_are_neither_strict_nor_first_seen :
  App.avg_salary_by_field salary_tie
  = [("Art"%string, Some 100%Q); ("CS"%string, Some 100%Q)] /\
  ~ Spec.strictly_descending
      (Pandas.dropna (Pandas.values (App.avg_salary_by_field salary_tie))) /\
  App.fields salary_tie = ["CS"%string; "Art"%string] /\
  Pandas.index (App.avg_salary_by_field salary_tie) <> App.fields salary_tie.
Proof.
  split; [reflexivity|]. split; [|split; [reflexivity | discriminate]].
  intros H. cbn in H. inversion H as [|a l _ Hall]; subst.
  inversion Hall as [|b m Hlt _]; subst.
  exact (Qlt_irrefl _ Hlt).
Qed.

(** ** Missing keys and missing values in the aggregations *)

Section RawGroups.
Import Pandas Spec.

Lemma raw_group_rows {V : Type} (key : Row -> option string)
    (val : Row -> option V) (data : DataFrame) (g : string) :
  getitem (getitem_mask data (eq_str (getitem data key) g)) val
  = getitem (group_rows String.eqb key g data) val.
Proof.
  unfold eq_str, getitem. rewrite map_map, getitem_mask_map. reflexivity.
Qed.

Lemma raw_groups_filter_has {V : Type} (key : Row -> option string)
    (val : Row -> option V) (data : DataFrame) :
  map (fun g => getitem (getitem_mask (filter (has key) data)
                           (eq_str (getitem (filter (has key) data) key) g)) val)
      (unique String.eqb (dropna (getitem (filter (has key) data) key)))
  = map (fun g => getitem (getitem_mask data (eq_str (getitem data key) g)) val)
        (unique String.eqb (dropna (getitem data key))).
Proof.
  rewrite dropna_filter_has. apply map_ext. intros g.
  now rewrite !raw_group_rows, group_rows_filter_has.
Qed.

Lemma mean_per_group_sort_index (key : Row -> option Q) (val : Row -> option Q)
    (data : DataFrame) :
  mean_per_group Qeq_bool key val
    (sort_index Qle_bool
       (groupby_mean Qeq_bool Qle_bool (getitem data key) (getitem data val)))
    data.
Proof.
  apply mean_per_group_Permutation with (kleb := Qle_bool).
  - apply Qeq_bool_refl.
  - apply Qeq_bool_trans.
  - apply sorted_Permutation.
Qed.

Lemma mean_per_group_sort_values (ascending : bool)
    (key : Row -> option string) (val : Row -> option Q) (data : DataFrame) :
  mean_per_group String.eqb key val
    (sort_values ascending
       (groupby_mean String.eqb String.leb (getitem data key) (getitem data val)))
    data.
Proof.
  apply mean_per_group_Permutation with (kleb := String.leb).
  - apply String.eqb_refl.
  - intros a b c Hab Hbc. apply String.eqb_eq in Hab, Hbc. subst.
    apply String.eqb_refl.
  - apply sort_values_Permutation.
Qed.

End RawGroups.

(** C5, as the code has it.  A row with a missing grouping key is left out
    of every grouped aggregation: each gives the same result on the table
    and on the table without such rows.  A missing value is another
    matter.  The mean aggregations map every present key to the mean of the
    values present in its group, so a missing value is skipped, but a group
    stays when all its values are missing and then carries an undefined
    mean.  The two raw aggregations hand over, per group, the cell of every
    row of the group, missing or not. *)
Theorem aggregations_skip_missing_keys_but_keep_groups :
  forall data : DataFrame,
    (App.avg_salary_by_field (filter (Spec.has Field_of_Study) data)
       = App.avg_salary_by_field data /\
     App.avg_salary_by_years (filter (Spec.has Years_to_Promotion) data)
       = App.avg_salary_by_years data /\
     App.avg_offers_by_network (filter (Spec.has Networking_Score) data)
       = App.avg_offers_by_network data /\
     App.satisfaction_data (filter (Spec.has Gender) data)
       = App.satisfaction_data data /\
     App.wlb_data (filter (Spec.has Field_of_Study) data) = App.wlb_data data /\
     App.job_counts (filter (Spec.has Current_Job_Level) data)
       = App.job_counts data /\
     App.avg_offers (filter (Spec.has Certifications) data) = App.avg_offers data /\
     App.avg_sat (filter (Spec.has Field_of_Study) data) = App.avg_sat data) /\
    (Spec.mean_per_group String.eqb Field_of_Study Starting_Salary
       (App.avg_salary_by_field data) data /\
     Spec.mean_per_group Qeq_bool Years_to_Promotion Starting_Salary
       (App.avg_salary_by_years data) data /\
     Spec.mean_per_group Qeq_bool Networking_Score Job_Offers
       (App.avg_offers_by_network data) data /\
     Spec.mean_per_group Qeq_bool Certifications Job_Offers
       (App.avg_offers data) data /\
     Spec.mean_per_group String.eqb Field_of_Study Career_Satisfaction
       (App.avg_sat data) data) /\
    ((forall s, Pandas.mean s = None <-> forall c, In c s -> c = None) /\
     (forall s m, Pandas.mean s = Some m ->
        Pandas.dropna s <> [] /\
        (m == Pandas.sum (Pandas.dropna s)
              / inject_Z (Z.of_nat (List.length (Pandas.dropna s))))%Q)) /\
    (App.satisfaction_data data
       = map (fun g => Pandas.getitem
                         (Spec.group_rows String.eqb Gender g data)
                         Career_Satisfaction)
             (App.genders data) /\
     App.wlb_data data
       = map (fun f => Pandas.getitem
                         (Spec.group_rows String.eqb Field_of_Study f data)
                         WorkLifeBalance_Score)
             (App.fields data)).
Proof.
  intros data. split; [|split; [|split]].
  - unfold App.avg_salary_by_field, App.avg_salary_by_years,
      App.avg_offers_by_network, App.avg_offers, App.avg_sat, App.job_counts,
      App.satisfaction_data, App.wlb_data, App.genders, App.fields.
    rewrite !groupby_mean_filter_has, !raw_groups_filter_has,
      value_counts_filter_has.
    repeat split.
  - repeat split;
      first [apply mean_per_group_sort_values | apply mean_per_group_sort_index].
  - split; [apply mean_None | apply mean_Some].
  - unfold App.satisfaction_data, App.wlb_data.
    split; apply map_ext; intros g; apply raw_group_rows.
Qed.

(** C5 on a group of two missing values: its mean is undefined. *)
Lemma aggregations_skip_missing_keys_but_keep_groups_witness :
  Pandas.mean [None; None] = None.
Proof.
  apply (proj1 (proj1 (proj2 (proj2
           (aggregations_skip_missing_keys_but_keep_groups []))))).
  intros c [<-|[<-|[]]]; reflexivity.
Defined.

(** C5 as stated fails: a missing value is not dropped from a raw group,
    and a group whose values are all missing is reported, with an undefined
    mean. *)
Lemma missing_values_stay_in_the_aggregations :
  App.wlb_data [unscored] = [[None]] /\
  App.avg_salary_by_field [graduate (Some "CS"%string) None]
  = [("CS"%string, None)].
Proof. split; reflexivity. Qed.

(** ** Charts over an empty view *)

(** C2, as the code has it.  Over the empty table every aggregation is
    empty, and every chart function still makes its one ordinary
    data-drawing call, on that empty data; no chart function, on any
    table, produces a placeholder figure. *)
Theorem empty_view_gives_empty_aggregations_and_ordinary_charts :
  (App.avg_salary_by_field [] = [] /\ App.avg_salary_by_years [] = [] /\
   App.avg_offers_by_network [] = [] /\ App.satisfaction_data [] = [] /\
   App.wlb_data [] = [] /\ App.job_counts [] = [] /\
   App.avg_offers [] = [] /\ App.avg_sat [] = [] /\
   Pandas.getitem [] University_GPA = [] /\
   Pandas.getitem [] Years_to_Promotion = []) /\
  (forall c, filter Pyplot.draws_data (Pyplot.calls (Script.plot_of c []))
             = [empty_call c]) /\
  (forall c data, Pyplot.is_placeholder (Script.plot_of c data) = false).
Proof.
  split; [repeat split|]. split.
  - intros c. destruct c; reflexivity.
  - intros c data. destruct c; reflexivity.
Qed.

(** C2 as stated fails: over the empty table the pie chart of job levels
    and the violin chart of satisfaction by gender are not placeholders,
    they are the ordinary charts drawn from empty data. *)
Lemma empty_view_charts_are_not_placeholders :
  Pyplot.is_placeholder (App.plot_joblevel_pie []) = false /\
  Pyplot.is_placeholder (App.plot_satisfaction_by_gender []) = false /\
  In (Pyplot.pie [] []) (Pyplot.calls (App.plot_joblevel_pie [])) /\
  In (Pyplot.violinplot []) (Pyplot.calls (App.plot_satisfaction_by_gender [])).
Proof. repeat split; simpl; auto. Qed.

(** * Further properties of the script *)

(** ** The options of the field selector *)

Section StringOrder.
Import OrderedTypeEx.

Lemma string_leb_iff (a b : string) :
  String.leb a b = true <-> String_as_OT.lt a b \/ a = b.
Proof.
  unfold String.leb.
  destruct (String.compare a b) eqn:E.
  - apply String_as_OT.cmp_eq in E. tauto.
  - apply String_as_OT.cmp_lt in E. tauto.
  - split; [discriminate|]. intros [H|H].
    + apply String_as_OT.cmp_lt in H. unfold String_as_OT.cmp in H. congruence.
    + apply String_as_OT.cmp_eq in H. unfold String_as_OT.cmp in H. congruence.
Qed.

Lemma string_leb_trans (a b c : string) :
  String.leb a b = true -> String.leb b c = true -> String.leb a c = true.
Proof.
  rewrite !string_leb_iff. intros [Hab|Eab] [Hbc|Ebc]; subst; auto.
  left. now apply String_as_OT.lt_trans with b.
Qed.

Lemma string_leb_ltb (a b : string) :
  String.leb a b = true -> a <> b -> String.ltb a b = true.
Proof.
  unfold String.leb, String.ltb.
  destruct (String.compare a b) eqn:E; try congruence.
  apply String.compare_eq_iff in E. congruence.
Qed.

End StringOrder.

Section StrictOrder.
Context {E : Type}.

Lemma StronglySorted_NoDup_strict (le lt : E -> E -> Prop) (l : list E) :
  (forall a b, le a b -> a <> b -> lt a b) ->
  StronglySorted le l -> NoDup l -> StronglySorted lt l.
Proof.
  intros Hlt. induction 1 as [|x l Hl IH Hx]; intros Hnd.
  - constructor.
  - inversion Hnd as [|? ? Hnotin Hnd']; subst.
    constructor; [now apply IH|].
    rewrite Forall_forall in Hx |- *. intros y Hy.
    apply Hlt; [now apply Hx|]. intros ->. contradiction.
Qed.

End StrictOrder.

(** X1. The options offered by the field selector are the fields of study
    present in the table, each once, in strictly ascending order. *)
Theorem field_options_are_the_present_fields_in_order :
  forall df : DataFrame,
    StronglySorted (fun a b => String.ltb a b = true) (App.field_options df) /\
    NoDup (App.field_options df) /\
    (forall f, In f (App.field_options df) <->
               exists r, In r df /\ Field_of_Study r = Some f).
Proof.
  intros df.
  assert (Hnd : NoDup (App.field_options df)).
  { unfold App.field_options.
    apply Permutation_NoDup
      with (l := Pandas.unique String.eqb
                   (Pandas.dropna (Pandas.getitem df Field_of_Study))).
    - apply Permutation_sym, sorted_Permutation.
    - apply unique_string_NoDup. }
  split; [|split; [exact Hnd | apply field_options_In]].
  apply StronglySorted_NoDup_strict
    with (le := fun a b => String.leb a b = true).
  - apply string_leb_ltb.
  - unfold App.field_options.
    apply sorted_StronglySorted.
    + apply String.leb_total.
    + apply string_leb_trans.
  - exact Hnd.
Qed.

(** ** How filters compose *)

Section FilterComposition.
Import Pandas App Spec.

Lemma filter_comm {A : Type} (f g : A -> bool) (l : list A) :
  filter f (filter g l) = filter g (filter f l).
Proof.
  induction l as [|a l IH]; simpl; [reflexivity|].
  destruct (g a) eqn:Eg, (f a) eqn:Ef; simpl; rewrite ?Eg, ?Ef, IH; reflexivity.
Qed.

Lemma filter_idem {A : Type} (f : A -> bool) (l : list A) :
  filter f (filter f l) = filter f l.
Proof.
  induction l as [|a l IH]; simpl; [reflexivity|].
  destruct (f a) eqn:Ef; simpl; rewrite ?Ef, IH; reflexivity.
Qed.

Lemma filter_implies_Subsequence {A : Type} (f g : A -> bool) (l : list A) :
  (forall a, In a l -> f a = true -> g a = true) ->
  Subsequence (filter f l) (filter g l).
Proof.
  induction l as [|a l IH]; simpl; intros H.
  - constructor.
  - assert (IH' : Subsequence (filter f l) (filter g l)).
    { apply IH. intros b Hb. apply H. now right. }
    destruct (f a) eqn:Ef.
    + rewrite (H a (or_introl eq_refl) Ef). now constructor.
    + destruct (g a); [now constructor | exact IH'].
Qed.

End FilterComposition.

(** X2. Filtering twice is filtering by both selections at once, in either
    order; filtering again with the same selection changes nothing; and the
    filter decides row by row, so the filter of two tables laid end to end
    is the two filtered tables laid end to end. *)
Theorem filters_compose_by_intersection :
  forall (df : DataFrame) (c1 c2 : list string) (r1 r2 : Q * Q),
    App.apply_filters (App.apply_filters df c1 r1) c2 r2
    = App.apply_filters (App.apply_filters df c2 r2) c1 r1 /\
    (forall r, In r (App.apply_filters (App.apply_filters df c1 r1) c2 r2) <->
               In r df /\ Spec.Retained c1 r1 r /\ Spec.Retained c2 r2 r) /\
    App.apply_filters (App.apply_filters df c1 r1) c1 r1
    = App.apply_filters df c1 r1 /\
    (forall df', App.apply_filters (df ++ df') c1 r1
                 = App.apply_filters df c1 r1 ++ App.apply_filters df' c1 r1).
Proof.
  intros df c1 c2 r1 r2. rewrite !apply_filters_filter.
  split; [apply filter_comm|]. split; [|split].
  - intros r. rewrite !filter_In, !keeps_Retained. tauto.
  - apply filter_idem.
  - intros df'. rewrite !apply_filters_filter. apply filter_app.
Qed.

(** X3. Narrowing the selection only removes rows: with fewer categories
    and a GPA interval inside the other, the filtered table is a
    subsequence of the table filtered with the wider selection. *)
Theorem narrowing_the_selection_only_removes_rows :
  forall (df : DataFrame) (c c' : list string) (rng rng' : Q * Q),
    (forall f, In f c -> In f c') ->
    (fst rng' <= fst rng)%Q -> (snd rng <= snd rng')%Q ->
    Spec.Subsequence (App.apply_filters df c rng) (App.apply_filters df c' rng').
Proof.
  intros df c c' rng rng' Hc Hlo Hhi. rewrite !apply_filters_filter.
  apply filter_implies_Subsequence. intros r _.
  rewrite !keeps_Retained.
  intros ((f & Ef & Hf) & (g & Eg & H1 & H2)). split.
  - exists f. auto.
  - exists g. split; [exact Eg|]. split.
    + now apply Qle_trans with (fst rng).
    + now apply Qle_trans with (snd rng).
Qed.

(** X3 on the sample table: CS between 3.0 and 3.3 against both fields
    between 2.5 and 3.5. *)
Lemma narrowing_the_selection_only_removes_rows_witness :
  Spec.Subsequence
    (App.apply_filters demo_table ["CS"%string] (3.0, 3.3)%Q)
    (App.apply_filters demo_table ["CS"%string; "Art"%string] (2.5, 3.5)%Q).
Proof.
  apply narrowing_the_selection_only_removes_rows.
  - intros f [<-|[]]. now left.
  - discriminate.
  - discriminate.
Defined.

(** X4. What the charts over a filtered table can show: every field on
    the salary bars, among the box plot labels and on the satisfaction
    heatmap is a selected field that occurs in the loaded table; every GPA
    handed to the histogram lies in the selected interval; and the filtered
    table has no missing field of study and no missing GPA. *)
Theorem charts_show_only_the_selection :
  forall (df : DataFrame) (sel : list string) (rng : Q * Q),
    (forall k,
        In k (Pandas.index (App.avg_salary_by_field (App.apply_filters df sel rng)))
        \/ In k (App.fields (App.apply_filters df sel rng))
        \/ In k (Pandas.index (App.avg_sat (App.apply_filters df sel rng))) ->
        In k sel /\ In k (App.field_options df)) /\
    (forall g,
        In (Some g) (Pandas.getitem (App.apply_filters df sel rng) University_GPA) ->
        (fst rng <= g)%Q /\ (g <= snd rng)%Q) /\
    ~ In None (Pandas.getitem (App.apply_filters df sel rng) University_GPA) /\
    ~ In None (Pandas.getitem (App.apply_filters df sel rng) Field_of_Study).
Proof.
  intros df sel rng.
  assert (Hrow : forall r, In r (App.apply_filters df sel rng) ->
                           In r df /\ Spec.Retained sel rng r).
  { intros r. rewrite apply_filters_filter, filter_In, keeps_Retained. tauto. }
  assert (Hfield : forall k r, In r (App.apply_filters df sel rng) ->
                     Field_of_Study r = Some k ->
                     In k sel /\ In k (App.field_options df)).
  { intros k r Hr Ek. destruct (Hrow r Hr) as (Hdf & (f & Ef & Hf) & _).
    assert (f = k) by congruence. subst f. split; [exact Hf|].
    apply field_options_In. now exists r. }
  split; [|split; [|split]].
  - intros k [H|[H|H]].
    + destruct (mean_per_group_sort_values false Field_of_Study Starting_Salary
                  (App.apply_filters df sel rng)) as (_ & Hk & _).
      destruct (Hk k H) as (r & Hr & Ek). now apply (Hfield k r).
    + unfold App.fields in H.
      apply unique_incl, dropna_In in H. unfold Pandas.getitem in H.
      apply in_map_iff in H. destruct H as (r & Ek & Hr). now apply (Hfield k r).
    + destruct (mean_per_group_sort_values true Field_of_Study Career_Satisfaction
                  (App.apply_filters df sel rng)) as (_ & Hk & _).
      destruct (Hk k H) as (r & Hr & Ek). now apply (Hfield k r).
  - intros g Hg. unfold Pandas.getitem in Hg. apply in_map_iff in Hg.
    destruct Hg as (r & Eg & Hr).
    destruct (Hrow r Hr) as (_ & _ & (g' & Eg' & Hlo & Hhi)).
    assert (g' = g) by congruence. subst g'. now split.
  - intros H. unfold Pandas.getitem in H. apply in_map_iff in H.
    destruct H as (r & Eg & Hr).
    destruct (Hrow r Hr) as (_ & _ & (g' & Eg' & _)). congruence.
  - intros H. unfold Pandas.getitem in H. apply in_map_iff in H.
    destruct H as (r & Ef & Hr).
    destruct (Hrow r Hr) as (_ & (f & Ef' & _) & _). congruence.
Qed.

(** X5. On a first load, when in this run the field selector returns its
    default and the slider returns its default over the observed bounds,
    the page is computed from exactly the rows that have both a field of
    study and a GPA, and the range in force is the observed minimum and
    maximum, the minimum not above the maximum. *)
Theorem first_load_charts_every_complete_row :
  forall (io : Streamlit.Session) (g : Script.Globals),
    Script.run io = Some g ->
    Streamlit.multiselect io (App.field_options (Streamlit.csv io))
                             (App.field_options (Streamlit.csv io))
    = App.field_options (Streamlit.csv io) ->
    (forall lo hi,
        App.gpa_min (Streamlit.csv io) = Some lo ->
        App.gpa_max (Streamlit.csv io) = Some hi ->
        Streamlit.slider io lo hi (lo, hi) = Some (lo, hi)) ->
    Script.filtered g = filter Spec.complete (Streamlit.csv io) /\
    Script.selected_fields g = App.field_options (Streamlit.csv io) /\
    App.gpa_min (Streamlit.csv io) = Some (fst (Script.gpa_range g)) /\
    App.gpa_max (Streamlit.csv io) = Some (snd (Script.gpa_range g)) /\
    (fst (Script.gpa_range g) <= snd (Script.gpa_range g))%Q.
Proof.
  intros io g Hrun Hms Hsl.
  apply run_Some in Hrun.
  destruct Hrun as (lo & hi & rng & Elo & Ehi & Es & ->).
  rewrite (Hsl lo hi Elo Ehi) in Es. injection Es as <-.
  cbn [Script.filtered Script.selected_fields Script.gpa_range fst snd].
  rewrite Hms.
  split; [|split; [reflexivity | split; [exact Elo | split; [exact Ehi|]]]].
  - rewrite apply_filters_filter. apply filter_ext_in.
    intros r Hr. now apply keeps_default.
  - pose proof (min_Some _ _ Elo) as [_ Hle].
    pose proof (max_Some _ _ Ehi) as [Hin _]. now apply Hle.
Qed.

(** X5 on the run of the sample session. *)
Lemma first_load_charts_every_complete_row_witness :
  Script.filtered demo_globals = filter Spec.complete demo_table.
Proof.
  apply (first_load_charts_every_complete_row demo_session demo_globals).
  - vm_compute. reflexivity.
  - reflexivity.
  - intros lo hi _ _. reflexivity.
Defined.

(** ** The line charts: groups in key order *)

Section SortedAgain.
Import Pandas.
Context {E : Type} (leb eqb : E -> E -> bool).

Lemma sorted_fixpoint (l : list E) :
  StronglySorted (fun a b => leb a b = true) l -> sorted leb l = l.
Proof.
  induction 1 as [|x l Hl IH Hx]; simpl; [reflexivity|].
  rewrite IH. destruct l as [|y l']; simpl; [reflexivity|].
  inversion Hx as [|? ? Hxy _]; subst. now rewrite Hxy.
Qed.

Hypothesis leb_total : forall a b, leb a b = true \/ leb b a = true.
Hypothesis leb_trans :
  forall a b c, leb a b = true -> leb b c = true -> leb a c = true.
Hypothesis eqb_sym : forall a b, eqb a b = eqb b a.

Let strictly (a b : E) : Prop := leb a b = true /\ eqb a b = false.

Lemma insert_strictly (x : E) (l : list E) :
  StronglySorted strictly l -> Forall (fun y => eqb x y = false) l ->
  StronglySorted strictly (insert leb x l).
Proof.
  induction 1 as [|y l Hl IH Hy]; simpl; intros Hx.
  - constructor; constructor.
  - inversion Hx as [|? ? Hxy Hxl]; subst.
    destruct (leb x y) eqn:Exy.
    + constructor; [now constructor|].
      constructor; [now split|].
      rewrite Forall_forall in Hy, Hxl |- *. intros z Hz. split.
      * apply leb_trans with y; [exact Exy | now apply Hy].
      * now apply Hxl.
    + constructor; [now apply IH|].
      rewrite Forall_forall in Hy |- *. intros z Hz.
      apply (Permutation_in _ (insert_Permutation leb x l)) in Hz.
      destruct Hz as [<-|Hz]; [|now apply Hy].
      split.
      * destruct (leb_total x y) as [H|H]; [congruence | exact H].
      * now rewrite eqb_sym.
Qed.

Lemma sorted_strictly (l : list E) :
  ForallOrdPairs (fun a b => eqb a b = false) l ->
  StronglySorted strictly (sorted leb l).
Proof.
  induction 1 as [|x l Hx Hl IH]; simpl.
  - constructor.
  - apply insert_strictly; [exact IH|].
    rewrite Forall_forall in Hx |- *. intros y Hy.
    apply Hx. now apply (sorted_In leb).
Qed.

End SortedAgain.

Section LineCharts.
Import Pandas.
Local Open Scope Q_scope.

Lemma Qle_bool_total (a b : Q) : Qle_bool a b = true \/ Qle_bool b a = true.
Proof.
  destruct (Qlt_le_dec a b) as [H|H].
  - left. apply Qle_bool_iff. now apply Qlt_le_weak.
  - right. now apply Qle_bool_iff.
Qed.

Lemma Qle_bool_trans (a b c : Q) :
  Qle_bool a b = true -> Qle_bool b c = true -> Qle_bool a c = true.
Proof. rewrite !Qle_bool_iff. apply Qle_trans. Qed.

Lemma StronglySorted_map {A B : Type} (R : B -> B -> Prop) (f : A -> B)
    (l : list A) :
  StronglySorted (fun a b => R (f a) (f b)) l <-> StronglySorted R (map f l).
Proof.
  induction l as [|a l IH]; simpl.
  - split; constructor.
  - split; intros H; inversion H as [|? ? Hl Ha]; subst; constructor.
    + now apply IH.
    + rewrite Forall_map. exact Ha.
    + now apply IH.
    + rewrite Forall_map in Ha. exact Ha.
Qed.

Lemma StronglySorted_weaken {A : Type} (R S : A -> A -> Prop) (l : list A) :
  (forall a b, R a b -> S a b) -> StronglySorted R l -> StronglySorted S l.
Proof.
  intros HRS. induction 1 as [|x l Hl IH Hx]; constructor; [exact IH|].
  rewrite Forall_forall in Hx |- *. intros y Hy. now apply HRS, Hx.
Qed.

(** The keys of a grouped mean over a numeric key, strictly ascending. *)
Lemma group_keys_ascending (keys : Column Q) :
  StronglySorted Qlt (group_keys Qeq_bool Qle_bool keys).
Proof.
  unfold group_keys.
  apply StronglySorted_weaken
    with (R := fun a b => Qle_bool a b = true /\ Qeq_bool a b = false).
  - intros a b [Hle Hne]. apply Qle_bool_iff in Hle.
    destruct (Qle_lt_or_eq _ _ Hle) as [H|H]; [exact H|].
    apply Qeq_bool_iff in H. congruence.
  - apply sorted_strictly.
    + apply Qle_bool_total.
    + apply Qle_bool_trans.
    + apply Qeq_bool_comm.
    + apply unique_distinct.
Qed.

Lemma sort_index_groupby_mean (keys : Column Q) (vals : Column Q) :
  sort_index Qle_bool (groupby_mean Qeq_bool Qle_bool keys vals)
  = groupby_mean Qeq_bool Qle_bool keys vals.
Proof.
  unfold sort_index. apply sorted_fixpoint.
  unfold groupby_mean.
  apply (StronglySorted_map
           (fun p q : Q * option Q => Qle_bool (fst p) (fst q) = true)
           (fun k => (k, mean (group_cells Qeq_bool keys vals k)))).
  simpl.
  apply StronglySorted_weaken with (R := Qlt).
  - intros a b H. apply Qle_bool_iff. now apply Qlt_le_weak.
  - apply group_keys_ascending.
Qed.

Lemma index_sorted_groupby_mean (keys : Column Q) (vals : Column Q) :
  StronglySorted Qlt
    (index (sort_index Qle_bool (groupby_mean Qeq_bool Qle_bool keys vals))).
Proof.
  rewrite sort_index_groupby_mean.
  unfold index, groupby_mean. rewrite map_map. simpl. rewrite map_id.
  apply group_keys_ascending.
Qed.

End LineCharts.

(** X6. The three line charts (salary by years to promotion, offers by
    networking score, offers by certifications) run left to right: their
    x values are strictly ascending, so no x value occurs twice; and the
    call of [sort_index] changes nothing, because [groupby] already hands
    the groups over in key order. *)
Theorem line_charts_run_left_to_right :
  forall data : DataFrame,
    (StronglySorted Qlt (Pandas.index (App.avg_salary_by_years data)) /\
     StronglySorted Qlt (Pandas.index (App.avg_offers_by_network data)) /\
     StronglySorted Qlt (Pandas.index (App.avg_offers data))) /\
    (App.avg_salary_by_years data
       = Pandas.groupby_mean Qeq_bool Qle_bool
           (Pandas.getitem data Years_to_Promotion)
           (Pandas.getitem data Starting_Salary) /\
     App.avg_offers_by_network data
       = Pandas.groupby_mean Qeq_bool Qle_bool
           (Pandas.getitem data Networking_Score)
           (Pandas.getitem data Job_Offers) /\
     App.avg_offers data
       = Pandas.groupby_mean Qeq_bool Qle_bool
           (Pandas.getitem data Certifications)
           (Pandas.getitem data Job_Offers)).
Proof.
  intros data.
  unfold App.avg_salary_by_years, App.avg_offers_by_network, App.avg_offers.
  split; repeat split;
    first [apply index_sorted_groupby_mean | apply sort_index_groupby_mean].
Qed.

(** ** The satisfaction heatmap and the majors on the charts *)

Section Heatmap.
Import Pandas.
Context {K : Type}.

Lemma ascending_dropna (l : Series K (option Q)) :
  StronglySorted (fun a b => value_leb (snd a) (snd b) = true) l ->
  StronglySorted Qle (dropna (values l)).
Proof.
  unfold values.
  induction 1 as [|[k v] l Hl IH Hv]; simpl.
  - constructor.
  - destruct v as [x|]; [|exact IH].
    constructor; [exact IH|].
    rewrite Forall_forall in Hv |- *. intros y Hy.
    apply dropna_In, in_map_iff in Hy. destruct Hy as (q & Eq & Hq).
    specialize (Hv q Hq). simpl in Hv. rewrite Eq in Hv. simpl in Hv.
    now apply Qle_bool_iff.
Qed.

Lemma sort_values_ascending (s : Series K (option Q)) :
  StronglySorted Qle (dropna (values (sort_values true s))).
Proof.
  unfold sort_values, values. rewrite map_app, dropna_app.
  fold (values (filter (fun p : K * option Q => isna (snd p)) s)).
  rewrite dropna_values_isna, app_nil_r.
  apply ascending_dropna.
  exact (nargsort_StronglySorted
           (fun p q : K * option Q => value_leb (snd p) (snd q))
           (fun a b => value_leb_total (snd a) (snd b))
           (fun a b c => value_leb_trans (snd a) (snd b) (snd c))
           true _).
Qed.

End Heatmap.

Section Majors.
Import Pandas App.

Lemma index_sort_values_fields (ascending : bool) (val : Row -> option Q)
    (data : DataFrame) :
  Permutation
    (index (sort_values ascending
              (groupby_mean String.eqb String.leb
                 (getitem data Field_of_Study) (getitem data val))))
    (fields data).
Proof.
  apply perm_trans
    with (index (groupby_mean String.eqb String.leb
                   (getitem data Field_of_Study) (getitem data val))).
  - unfold index. apply Permutation_map, sort_values_Permutation.
  - rewrite index_groupby_mean. apply sorted_Permutation.
Qed.

End Majors.

(** X7. The heatmap of average satisfaction lists the majors from the
    lowest average to the highest, majors without any satisfaction value
    last; the image has one single-cell row per major, and row [i] carries
    tick [i] and the label of its major. *)
Theorem heatmap_rows_ascend_with_undefined_last :
  forall data : DataFrame,
    StronglySorted Qle (Pandas.dropna (Pandas.values (App.avg_sat data))) /\
    (exists nums nans,
        App.avg_sat data = nums ++ nans /\
        Forall (fun p => snd p <> None) nums /\
        Forall (fun p => snd p = None) nans) /\
    (exists rows labels,
        In (Pyplot.imshow rows) (Pyplot.calls (App.plot_satisfaction_heatmap data)) /\
        In (Pyplot.set_yticks (seq 0 (List.length rows)))
           (Pyplot.calls (App.plot_satisfaction_heatmap data)) /\
        In (Pyplot.set_yticklabels labels)
           (Pyplot.calls (App.plot_satisfaction_heatmap data)) /\
        labels = Pandas.index (App.avg_sat data) /\
        rows = map (fun v => [v]) (Pandas.values (App.avg_sat data)) /\
        List.length labels = List.length rows /\
        List.length rows = List.length (App.fields data)).
Proof.
  intros data. split; [|split].
  - apply sort_values_ascending.
  - apply sort_values_nan_last.
  - exists (map (fun v => [v]) (Pandas.values (App.avg_sat data))),
           (Pandas.index (App.avg_sat data)).
    assert (Hlen : List.length (Pandas.index (App.avg_sat data))
                   = List.length (map (fun v : option Q => [v])
                                      (Pandas.values (App.avg_sat data)))).
    { unfold Pandas.index, Pandas.values. now rewrite !length_map. }
    split; [now left|]. split.
    + right. left. rewrite <- Hlen. reflexivity.
    + split; [right; right; now left|].
      split; [reflexivity | split; [reflexivity | split; [exact Hlen|]]].
      rewrite <- Hlen. apply Permutation_length.
      apply index_sort_values_fields.
Qed.

(** X8. The salary bar chart, the work-life box plot and the satisfaction
    heatmap show the same majors, each exactly once: the fields of study
    present in the table they are drawn from, which are also the options
    the field selector would offer for that table. *)
Theorem bar_box_and_heatmap_show_the_same_majors :
  forall data : DataFrame,
    NoDup (App.fields data) /\
    Permutation (Pandas.index (App.avg_salary_by_field data)) (App.fields data) /\
    Permutation (Pandas.index (App.avg_sat data)) (App.fields data) /\
    Permutation (App.field_options data) (App.fields data) /\
    List.length (App.wlb_data data) = List.length (App.fields data) /\
    In (Pyplot.boxplot (App.wlb_data data) (App.fields data))
       (Pyplot.calls (App.plot_worklife_by_field data)).
Proof.
  intros data. split; [apply unique_string_NoDup|].
  split; [apply index_sort_values_fields|].
  split; [apply index_sort_values_fields|].
  split; [apply sorted_Permutation|].
  split; [unfold App.wlb_data; apply length_map | now left].
Qed.

(** ** Counting rows per group *)

Section Counting.
Import Pandas Spec.

Lemma filter_split_length {A : Type} (f : A -> bool) (l : list A) :
  (List.length (filter f l) + List.length (filter (fun a => negb (f a)) l)
   = List.length l)%nat.
Proof.
  induction l as [|a l IH]; simpl; [reflexivity|].
  destruct (f a); simpl; lia.
Qed.

Lemma filter_unique_comm (p : string -> bool) (l : list string) :
  filter p (unique String.eqb l) = unique String.eqb (filter p l).
Proof.
  induction l as [|a l IH]; simpl; [reflexivity|].
  destruct (p a) eqn:Ea; simpl.
  - f_equal. rewrite filter_comm, IH. reflexivity.
  - rewrite <- IH, filter_comm. apply filter_all.
    intros y Hy. apply filter_In in Hy. destruct Hy as [_ Hy].
    apply negb_true_iff. apply String.eqb_neq. intros ->. congruence.
Qed.

Lemma filter_eqb_other (x k : string) (l : list string) :
  String.eqb x k = false ->
  filter (String.eqb k) (filter (fun y => negb (String.eqb x y)) l)
  = filter (String.eqb k) l.
Proof.
  intros Hxk. rewrite filter_comm. apply filter_all.
  intros y Hy. apply filter_In in Hy. destruct Hy as [_ Hy].
  apply String.eqb_eq in Hy. subst y. now rewrite Hxk.
Qed.

(** The counts of the distinct values add up to the length of the list. *)
Lemma count_total (l : list string) :
  list_sum (map (fun k => List.length (filter (String.eqb k) l))
                (unique String.eqb l))
  = List.length l.
Proof.
  assert (H : forall n (m : list string), (List.length m <= n)%nat ->
            list_sum (map (fun k => List.length (filter (String.eqb k) m))
                          (unique String.eqb m))
            = List.length m);
    [|now apply (H (List.length l))].
  clear l. induction n as [|n IH]; intros l Hn.
  - destruct l; [reflexivity | simpl in Hn; lia].
  - destruct l as [|x l]; [reflexivity|].
    simpl unique. rewrite filter_unique_comm.
    set (rest := filter (fun y => negb (String.eqb x y)) l).
    simpl map. rewrite String.eqb_refl. simpl list_sum.
    assert (Hrest : (List.length rest <= n)%nat).
    { pose proof (filter_split_length (String.eqb x) l) as H.
      fold rest in H. simpl in Hn. lia. }
    rewrite map_ext_in
      with (g := fun k => List.length (filter (String.eqb k) rest)).
    + rewrite (IH rest Hrest).
      pose proof (filter_split_length (String.eqb x) l) as H.
      fold rest in H. simpl. lia.
    + intros k Hk. apply unique_incl in Hk.
      unfold rest in Hk. apply filter_In in Hk. destruct Hk as [_ Hk].
      apply negb_true_iff in Hk.
      assert (Hkx : String.eqb k x = false) by now rewrite String.eqb_sym.
      simpl. rewrite Hkx. unfold rest. now rewrite filter_eqb_other.
Qed.

Variable key : Row -> option string.

Lemma count_group_rows (k : string) (data : DataFrame) :
  List.length (filter (String.eqb k) (dropna (getitem data key)))
  = List.length (group_rows String.eqb key k data).
Proof.
  unfold group_rows, getitem.
  induction data as [|r data IH]; simpl; [reflexivity|].
  destruct (key r) as [k'|]; simpl; [|exact IH].
  rewrite (String.eqb_sym k' k).
  destruct (String.eqb k k'); simpl; now rewrite IH.
Qed.

Lemma length_present (data : DataFrame) :
  List.length (dropna (getitem data key)) = List.length (filter (has key) data).
Proof.
  unfold getitem, has, notna, isna.
  induction data as [|r data IH]; simpl; [reflexivity|].
  destruct (key r); simpl; now rewrite IH.
Qed.

Lemma group_rows_nonempty (k : string) (data : DataFrame) :
  In k (unique String.eqb (dropna (getitem data key))) ->
  group_rows String.eqb key k data <> [].
Proof.
  intros Hk. apply unique_incl, dropna_In in Hk.
  unfold getitem in Hk. apply in_map_iff in Hk. destruct Hk as (r & Ek & Hr).
  intros Hnil.
  assert (Hin : In r (group_rows String.eqb key k data)).
  { unfold group_rows. apply filter_In. split; [exact Hr|].
    rewrite Ek. apply String.eqb_refl. }
  rewrite Hnil in Hin. exact Hin.
Qed.

(** The sizes of the groups of the distinct present keys add up to the
    number of rows that have a key. *)
Lemma group_sizes_total (data : DataFrame) :
  list_sum (map (fun k => List.length (group_rows String.eqb key k data))
                (unique String.eqb (dropna (getitem data key))))
  = List.length (filter (has key) data).
Proof.
  rewrite <- length_present, <- count_total.
  f_equal. apply map_ext. intros k. symmetry. apply count_group_rows.
Qed.

Lemma nat_leb_total (a b : nat) : Nat.leb a b = true \/ Nat.leb b a = true.
Proof. rewrite !Nat.leb_le. lia. Qed.

Lemma nat_leb_trans (a b c : nat) :
  Nat.leb a b = true -> Nat.leb b c = true -> Nat.leb a c = true.
Proof. rewrite !Nat.leb_le. lia. Qed.

End Counting.

(** X9. The job-level pie has one slice per job level present in the
    table, each level once; a slice counts the rows at that level, so it is
    at least one; the slices come largest first; and together they count
    every row that has a job level. *)
Theorem job_level_slices_count_every_row_with_a_level :
  forall data : DataFrame,
    NoDup (Pandas.index (App.job_counts data)) /\
    (forall k, In k (Pandas.index (App.job_counts data)) <->
               exists r, In r data /\ Current_Job_Level r = Some k) /\
    (forall k n, In (k, n) (App.job_counts data) ->
       n = List.length (Spec.group_rows String.eqb Current_Job_Level k data) /\
       (1 <= n)%nat) /\
    StronglySorted (fun a b => (b <= a)%nat) (Pandas.values (App.job_counts data)) /\
    list_sum (Pandas.values (App.job_counts data))
    = List.length (filter (Spec.has Current_Job_Level) data).
Proof.
  intros data.
  set (present := Pandas.dropna (Pandas.getitem data Current_Job_Level)).
  set (counted := map (fun k => (k, List.length (filter (String.eqb k) present)))
                      (Pandas.unique String.eqb present)).
  assert (Hperm : Permutation (App.job_counts data) counted).
  { unfold App.job_counts, Pandas.value_counts. apply nargsort_Permutation. }
  assert (Hidx : Permutation (Pandas.index (App.job_counts data))
                             (Pandas.unique String.eqb present)).
  { apply perm_trans with (Pandas.index counted).
    - unfold Pandas.index. now apply Permutation_map.
    - unfold Pandas.index, counted. rewrite map_map. simpl. rewrite map_id.
      apply Permutation_refl. }
  split; [|split; [|split; [|split]]].
  - apply (Permutation_NoDup (Permutation_sym Hidx)), unique_string_NoDup.
  - intros k. split.
    + intros Hk. apply (Permutation_in _ Hidx) in Hk.
      apply unique_incl, dropna_In in Hk. unfold Pandas.getitem in Hk.
      apply in_map_iff in Hk. destruct Hk as (r & Ek & Hr). now exists r.
    + intros (r & Hr & Ek).
      apply (Permutation_in _ (Permutation_sym Hidx)).
      apply unique_string_In, dropna_In. rewrite <- Ek.
      unfold Pandas.getitem. now apply in_map.
  - intros k n Hkn. apply (Permutation_in _ Hperm) in Hkn.
    unfold counted in Hkn. apply in_map_iff in Hkn.
    destruct Hkn as (k' & E & Hk'). injection E as -> <-.
    unfold present. rewrite count_group_rows. split; [reflexivity|].
    pose proof (group_rows_nonempty Current_Job_Level k data Hk') as Hne.
    destruct (Spec.group_rows String.eqb Current_Job_Level k data);
      [congruence | simpl; lia].
  - unfold Pandas.values.
    apply (StronglySorted_map (fun a b : nat => (b <= a)%nat) snd).
    unfold App.job_counts, Pandas.value_counts.
    apply StronglySorted_weaken
      with (R := fun a b : string * nat => Nat.leb (snd b) (snd a) = true).
    + intros a b H. now apply Nat.leb_le.
    + exact (nargsort_StronglySorted
               (fun p q : string * nat => Nat.leb (snd p) (snd q))
               (fun a b => nat_leb_total (snd a) (snd b))
               (fun a b c => nat_leb_trans (snd a) (snd b) (snd c))
               false _).
  - unfold Pandas.values.
    rewrite (Permutation_list_sum (Permutation_map snd Hperm)).
    unfold counted. rewrite map_map. simpl.
    rewrite count_total. apply length_present.
Qed.

Section RawGroupSizes.
Import Pandas Spec.

Lemma raw_groups_total {V : Type} (key : Row -> option string)
    (val : Row -> option V) (data : DataFrame) :
  list_sum
    (map (@List.length (option V))
       (map (fun g => getitem (getitem_mask data (eq_str (getitem data key) g)) val)
            (unique String.eqb (dropna (getitem data key)))))
  = List.length (filter (has key) data).
Proof.
  rewrite map_map, <- group_sizes_total. f_equal.
  apply map_ext. intros g. rewrite raw_group_rows.
  unfold getitem. apply length_map.
Qed.

Lemma raw_groups_nonempty {V : Type} (key : Row -> option string)
    (val : Row -> option V) (data : DataFrame) :
  Forall (fun cells => cells <> [])
    (map (fun g => getitem (getitem_mask data (eq_str (getitem data key) g)) val)
         (unique String.eqb (dropna (getitem data key)))).
Proof.
  rewrite Forall_map, Forall_forall. intros g Hg.
  rewrite raw_group_rows. unfold getitem.
  pose proof (group_rows_nonempty key g data Hg) as Hne.
  destruct (group_rows String.eqb key g data); [congruence | discriminate].
Qed.

End RawGroupSizes.

(** X10. The box plot and the violin plot split the rows by group without
    losing or repeating any: over the fields of study (over the genders)
    present in the table, every box (violin) holds at least one cell, and
    the boxes (violins) together hold one cell for each row that has a
    field of study (a gender), missing scores included.  There is one
    violin per gender, no gender twice. *)
Theorem boxes_and_violins_partition_the_rows :
  forall data : DataFrame,
    (list_sum (map (@List.length (option Q)) (App.wlb_data data))
       = List.length (filter (Spec.has Field_of_Study) data) /\
     Forall (fun cells => cells <> []) (App.wlb_data data)) /\
    (list_sum (map (@List.length (option Q)) (App.satisfaction_data data))
       = List.length (filter (Spec.has Gender) data) /\
     Forall (fun cells => cells <> []) (App.satisfaction_data data)) /\
    (List.length (App.satisfaction_data data) = List.length (App.genders data) /\
     List.length (App.wlb_data data) = List.length (App.fields data) /\
     NoDup (App.genders data) /\ NoDup (App.fields data)).
Proof.
  intros data. split; [|split].
  - split; [apply raw_groups_total | apply raw_groups_nonempty].
  - split; [apply raw_groups_total | apply raw_groups_nonempty].
  - unfold App.satisfaction_data, App.wlb_data. rewrite !length_map.
    repeat split; apply unique_string_NoDup.
Qed.

(** ** The columns a chart reads *)

Section ChartColumns.
Import Pandas App.

Lemma getitem_getitem_mask {V : Type} (val : Row -> option V)
    (data : DataFrame) (mask : list bool) :
  getitem (getitem_mask data mask) val
  = map fst (filter snd (combine (getitem data val) mask)).
Proof.
  unfold getitem, getitem_mask. revert mask.
  induction data as [|r data IH]; intros mask; simpl; [reflexivity|].
  destruct mask as [|b mask]; simpl; [reflexivity|].
  destruct b; simpl; now rewrite IH.
Qed.

Lemma raw_groups_columns {V : Type} (key : Row -> option string)
    (val : Row -> option V) (data data' : DataFrame) :
  getitem data key = getitem data' key ->
  getitem data val = getitem data' val ->
  map (fun g => getitem (getitem_mask data (eq_str (getitem data key) g)) val)
      (unique String.eqb (dropna (getitem data key)))
  = map (fun g => getitem (getitem_mask data' (eq_str (getitem data' key) g)) val)
        (unique String.eqb (dropna (getitem data' key))).
Proof.
  intros Hk Hv. rewrite <- Hk. apply map_ext. intros g.
  now rewrite !getitem_getitem_mask, <- Hv.
Qed.

End ChartColumns.

(** X12. Each chart reads only the columns it names: two tables that agree
    on those columns give the same figure, whatever else differs between
    them. *)
Theorem each_chart_reads_only_its_columns :
  forall data data' : DataFrame,
    (Pandas.getitem data University_GPA = Pandas.getitem data' University_GPA ->
     App.plot_gpa_hist data = App.plot_gpa_hist data') /\
    (Pandas.getitem data Field_of_Study = Pandas.getitem data' Field_of_Study ->
     Pandas.getitem data Starting_Salary = Pandas.getitem data' Starting_Salary ->
     App.plot_salary_by_field data = App.plot_salary_by_field data') /\
    (Pandas.getitem data Years_to_Promotion = Pandas.getitem data' Years_to_Promotion ->
     Pandas.getitem data Starting_Salary = Pandas.getitem data' Starting_Salary ->
     App.plot_salary_by_promotion_years data
     = App.plot_salary_by_promotion_years data') /\
    (Pandas.getitem data Networking_Score = Pandas.getitem data' Networking_Score ->
     Pandas.getitem data Job_Offers = Pandas.getitem data' Job_Offers ->
     App.plot_job_offers_by_networking data
     = App.plot_job_offers_by_networking data') /\
    (Pandas.getitem data Years_to_Promotion = Pandas.getitem data' Years_to_Promotion ->
     Pandas.getitem data University_GPA = Pandas.getitem data' University_GPA ->
     App.plot_gpa_vs_promotion data = App.plot_gpa_vs_promotion data') /\
    (Pandas.getitem data Gender = Pandas.getitem data' Gender ->
     Pandas.getitem data Career_Satisfaction
     = Pandas.getitem data' Career_Satisfaction ->
     App.plot_satisfaction_by_gender data = App.plot_satisfaction_by_gender data') /\
    (Pandas.getitem data Field_of_Study = Pandas.getitem data' Field_of_Study ->
     Pandas.getitem data WorkLifeBalance_Score
     = Pandas.getitem data' WorkLifeBalance_Score ->
     App.plot_worklife_by_field data = App.plot_worklife_by_field data') /\
    (Pandas.getitem data Current_Job_Level = Pandas.getitem data' Current_Job_Level ->
     App.plot_joblevel_pie data = App.plot_joblevel_pie data') /\
    (Pandas.getitem data Certifications = Pandas.getitem data' Certifications ->
     Pandas.getitem data Job_Offers = Pandas.getitem data' Job_Offers ->
     App.plot_offers_vs_certifications data
     = App.plot_offers_vs_certifications data') /\
    (Pandas.getitem data Field_of_Study = Pandas.getitem data' Field_of_Study ->
     Pandas.getitem data Career_Satisfaction
     = Pandas.getitem data' Career_Satisfaction ->
     App.plot_satisfaction_heatmap data = App.plot_satisfaction_heatmap data').
Proof.
  intros data data'.
  split; [intros H; unfold App.plot_gpa_hist; now rewrite H|].
  split; [intros H1 H2; unfold App.plot_salary_by_field, App.avg_salary_by_field;
          now rewrite H1, H2|].
  split; [intros H1 H2;
          unfold App.plot_salary_by_promotion_years, App.avg_salary_by_years;
          now rewrite H1, H2|].
  split; [intros H1 H2;
          unfold App.plot_job_offers_by_networking, App.avg_offers_by_network;
          now rewrite H1, H2|].
  split; [intros H1 H2; unfold App.plot_gpa_vs_promotion; now rewrite H1, H2|].
  split; [intros H1 H2;
          unfold App.plot_satisfaction_by_gender, App.satisfaction_data, App.genders;
          rewrite (raw_groups_columns Gender Career_Satisfaction data data' H1 H2);
          now rewrite H1|].
  split; [intros H1 H2;
          unfold App.plot_worklife_by_field, App.wlb_data, App.fields;
          rewrite (raw_groups_columns Field_of_Study WorkLifeBalance_Score
                     data data' H1 H2);
          now rewrite H1|].
  split; [intros H; unfold App.plot_joblevel_pie, App.job_counts; now rewrite H|].
  split; [intros H1 H2; unfold App.plot_offers_vs_certifications, App.avg_offers;
          now rewrite H1, H2|].
  intros H1 H2. unfold App.plot_satisfaction_heatmap, App.avg_sat.
  now rewrite H1, H2.
Qed.

(** X12 on two tables that differ only in GPA: their salary charts are the
    same. *)
Lemma each_chart_reads_only_its_columns_witness :
  App.plot_salary_by_field
    [mkRow (Some "CS"%string) (Some 3.1%Q) (Some 100%Q)
           None None None None None None None None]
  = App.plot_salary_by_field
    [mkRow (Some "CS"%string) (Some 3.9%Q) (Some 100%Q)
           None None None None None None None None].
Proof.
  apply (proj1 (proj2 (each_chart_reads_only_its_columns _ _))); reflexivity.
Defined.

(** ** Groups in order of first appearance *)

Section FirstAppearance.
Import Pandas.

Lemma filter_filter {A : Type} (f g : A -> bool) (l : list A) :
  filter f (filter g l) = filter (fun a => g a && f a) l.
Proof.
  induction l as [|a l IH]; simpl; [reflexivity|].
  destruct (g a); simpl; [destruct (f a)|]; now rewrite IH.
Qed.

Lemma unique_app (l1 l2 : list string) :
  unique String.eqb (l1 ++ l2)
  = unique String.eqb l1
    ++ filter (fun y => negb (existsb (String.eqb y) l1)) (unique String.eqb l2).
Proof.
  induction l1 as [|x l1 IH]; simpl.
  - symmetry. apply filter_all. reflexivity.
  - f_equal. rewrite IH, filter_app. f_equal.
    rewrite filter_filter. apply filter_ext. intros y.
    rewrite (String.eqb_sym y x).
    destruct (String.eqb x y); simpl;
      [apply andb_false_r | apply andb_true_r].
Qed.

Lemma unique_dropna_app (key : Row -> option string) (data more : DataFrame) :
  unique String.eqb (dropna (getitem (data ++ more) key))
  = unique String.eqb (dropna (getitem data key))
    ++ filter (fun y => negb (existsb (String.eqb y)
                                (dropna (getitem data key))))
              (unique String.eqb (dropna (getitem more key))).
Proof.
  unfold getitem. rewrite map_app, dropna_app. apply unique_app.
Qed.

End FirstAppearance.

(** X14. Violins and boxes stand in order of first appearance: when rows
    are added at the end of the table, the genders (fields) already on the
    plot keep their places, and the genders (fields) that are new come
    after them, in the order in which they first occur in the added
    rows. *)
Theorem added_rows_keep_the_groups_in_place :
  forall data more : DataFrame,
    App.genders (data ++ more)
    = App.genders data
      ++ filter (fun y => negb (existsb (String.eqb y)
                                  (Pandas.dropna (Pandas.getitem data Gender))))
                (App.genders more) /\
    App.fields (data ++ more)
    = App.fields data
      ++ filter (fun y => negb (existsb (String.eqb y)
                                  (Pandas.dropna (Pandas.getitem data Field_of_Study))))
                (App.fields more).
Proof.
  intros data more. split; apply unique_dropna_app.
Qed.
